(** * Call-Routing-Project: the Go route-cost index

    A shallow embedding of the two Go programs of the repository,

    - the main solution (its header reads [File: main.go], "the main
      solution"): [loadRouteCosts], [getCost], [getAllCosts];
    - [go_solution/main.go]: [loadFile], [getCost], [getCosts];

    and the properties of the route-cost index they share: the global
    [costs] map from prefix strings to cost strings, the merge applied
    to every record that is loaded, and the scan over the prefixes of a
    number.

    Go strings are byte sequences and so are Rocq's: [len(s)] is
    [String.length s], [s[:i]] is [substring 0 i s], and the comparison
    [v > w] of two Go strings is the lexicographic order on bytes,
    [String.ltb w v].  The Go map [map[string]string] is a
    [gmap string string]. *)

From Stdlib Require Import String Ascii List Permutation DecimalString.
From stdpp Require Import gmap strings list fin_maps.

Open Scope string_scope.

(** ** Go's order on strings *)

(** [v > w] in Go, for two strings. *)
Definition gt_string (v w : string) : bool := String.ltb w v.

(** ** The state of the process and the outcome of a call *)

(** What [print] has put on standard output.  The colour codes that
    [format.Red], [format.Green], ... wrap around a text are left out;
    an event keeps the text that was formatted. *)
Inductive Printed : Type :=
| PrintedError (msg : string)            (* print("\n", format.Red(err.Error())) *)
| PrintedCost (number cost : string)     (* "Cost:" "<number> : <cost>" *)
| PrintedCreated                         (* "Result file /results/<name> created!" *)
| PrintedCompleted.                      (* "Completed in <duration>." *)

(** The global variable [costs], standard output, and the lines written
    to the result file of the running [getAllCosts]/[getCosts]. *)
Record World : Type := mkWorld {
  costs : gmap string string;
  stdout : list Printed;
  resultFile : list string
}.

(** A call either returns, panics (an index out of range), or ends the
    process ([log.Fatalf]). *)
Inductive Outcome (A : Type) : Type :=
| Returned (a : A)
| Panicked
| Exited.
Arguments Returned {A} a.
Arguments Panicked {A}.
Arguments Exited {A}.

Definition M (A : Type) : Type := World -> Outcome A * World.

Definition ret {A} (a : A) : M A := fun w => (Returned a, w).

Definition bind {A B} (c : M A) (k : A -> M B) : M B :=
  fun w =>
    match c w with
    | (Returned a, w') => k a w'
    | (Panicked, w') => (Panicked, w')
    | (Exited, w') => (Exited, w')
    end.

Notation "'let*' x ':=' c 'in' k" := (bind c (fun x => k))
  (at level 10, x name, c at level 100, k at level 200, only parsing).
Notation "'run' c 'then' k" := (bind c (fun _ => k))
  (at level 10, c at level 100, k at level 200, only parsing).

Definition panic {A} : M A := fun w => (Panicked, w).
Definition fatal {A} : M A := fun w => (Exited, w).

(** [v, ok := costs[k]] *)
Definition readCosts (k : string) : M (option string) :=
  fun w => (Returned (costs w !! k), w).

(** [costs[k] = v] *)
Definition writeCosts (k v : string) : M unit :=
  fun w => (Returned tt,
            mkWorld (<[k := v]> (costs w)) (stdout w) (resultFile w)).

(** [print(...)] *)
Definition printEvent (e : Printed) : M unit :=
  fun w => (Returned tt, mkWorld (costs w) (stdout w ++ [e]) (resultFile w)).

(** [row[i]]: a panic when [i] is out of range. *)
Definition index (row : list string) (i : nat) : M string :=
  match nth_error row i with
  | Some s => ret s
  | None => panic
  end.

(** ** The CSV reader *)

(** One call of [reader.Read()] that is not [io.EOF]: a record, or an
    error.  The end of the list is [io.EOF]. *)
Inductive ReadResult : Type :=
| Row (row : list string)
| ReadError (msg : string).

(** [encoding/csv] with the reader's fields left at their defaults
    ([FieldsPerRecord = 0]): the first record fixes the number of fields,
    and a later record with another number of fields is returned with a
    [ParseError] whose [Err] is [ErrFieldCount].  [csvReader] is that
    rule over the records of a file, already split into fields, each
    record on a line of its own and no empty line between them: the
    record at position [n] of the list is on line [n + 1]. *)
Definition ErrFieldCount : string := "wrong number of fields".

(** [err.Error()] of that [ParseError] for the record on line [line]:
    [fmt.Sprintf("record on line %d: %v", e.Line, e.Err)]. *)
Definition fieldCountError (line : nat) : string :=
  "record on line " ++ NilEmpty.string_of_uint (Nat.to_uint line)
  ++ ": " ++ ErrFieldCount.

Definition csvRead (expected line : nat) (record : list string) : ReadResult :=
  if Nat.eqb (List.length record) expected then Row record
  else ReadError (fieldCountError line).

Fixpoint csvReadFrom (expected line : nat) (records : list (list string))
  : list ReadResult :=
  match records with
  | [] => []
  | record :: rest =>
      csvRead expected line record :: csvReadFrom expected (S line) rest
  end.

Definition csvReader (records : list (list string)) : list ReadResult :=
  match records with
  | [] => []
  | first :: rest => Row first :: csvReadFrom (List.length first) 2 rest
  end.

(** The file a menu action works on: [listFiles] or [os.Open] failed
    with a message, or the file is open and its reader yields [reads]. *)
Inductive Source : Type :=
| SourceError (msg : string)
| SourceReader (reads : list ReadResult).

(** The file the results go to: what [os.Create] answers, and what
    [WriteString] answers for a line given the lines written so far
    ([None] is Go's [nil] error). *)
Record Dest : Type := mkDest {
  createError : option string;
  writeError : list string -> string -> option string
}.

(** A destination on which nothing fails. *)
Definition healthyDest : Dest := mkDest None (fun _ _ => None).

(** [os.Create]: the file is created or truncated. *)
Definition createFile : M unit :=
  fun w => (Returned tt, mkWorld (costs w) (stdout w) []).

(** [resultFile.WriteString(line)] on an open file: the error, if any. *)
Definition writeString (dst : Dest) (line : string) : M (option string) :=
  fun w =>
    match writeError dst (resultFile w) line with
    | Some msg => (Returned (Some msg), w)
    | None => (Returned None,
               mkWorld (costs w) (stdout w) (resultFile w ++ [line]))
    end.

(** How a [for] loop was left: [break], or [return] from the function. *)
Inductive LoopExit : Type := Break | Return.

Definition newline : string := String (ascii_of_nat 10) EmptyString.

(** [fmt.Sprintf("%s,%s\n", number, cost)] *)
Definition exportLine (number cost : string) : string :=
  number ++ "," ++ cost ++ newline.

(** * The main solution *)

Module MainSolution.

(** The insert or update of [loadRouteCosts], lines 167-173:
[[
  if v, ok := costs[row[0]]; (ok && v > row[1]) || !ok {
      costs[row[0]] = row[1]
  }
]] *)
Definition insertRow (row : list string) : M unit :=
  let* r0 := index row 0 in
  let* v := readCosts r0 in
  let* r1 := index row 1 in
  match v with
  | Some v => if gt_string v r1 then writeCosts r0 r1 else ret tt
  | None => writeCosts r0 r1
  end.

(** The [for] loop of [loadRouteCosts], lines 155-174. *)
Fixpoint loadLoop (reads : list ReadResult) : M LoopExit :=
  match reads with
  | [] => ret Break
  | ReadError msg :: _ => run printEvent (PrintedError msg) then ret Return
  | Row row :: rest => run insertRow row then loadLoop rest
  end.

Definition loadRouteCosts (src : Source) : M unit :=
  match src with
  | SourceError msg => printEvent (PrintedError msg)
  | SourceReader reads =>
      let* exit := loadLoop reads in
      match exit with
      | Break => printEvent PrintedCompleted
      | Return => ret tt
      end
  end.

(** [getCost], lines 182-196: the loop runs [i] from [len(prefix)] down
    to [0] and has no [break]. *)
Fixpoint getCostLoop (prefix : string) (i : nat) (result : string) : M string :=
  let* v := readCosts (substring 0 i prefix) in
  let result := match v with Some v => v | None => result end in
  match i with
  | O => ret result
  | S j => getCostLoop prefix j result
  end.

Definition getCost (prefix : string) : M string :=
  getCostLoop prefix (String.length prefix) "0".

(** The [for] loop of [getAllCosts], lines 240-267. *)
Fixpoint allCostsLoop (persist : bool) (dst : Dest) (reads : list ReadResult)
  : M LoopExit :=
  match reads with
  | [] => ret Break
  | ReadError msg :: _ => run printEvent (PrintedError msg) then ret Return
  | Row row :: rest =>
      let* number := index row 0 in
      let* cost := getCost number in
      if persist then
        let* err := writeString dst (exportLine number cost) in
        match err with
        | Some msg => run printEvent (PrintedError msg) then ret Return
        | None => allCostsLoop persist dst rest
        end
      else
        run printEvent (PrintedCost number cost) then
        allCostsLoop persist dst rest
  end.

Definition getAllCosts (persist : bool) (src : Source) (dst : Dest) : M unit :=
  match src with
  | SourceError msg => printEvent (PrintedError msg)
  | SourceReader reads =>
      match (if persist then createError dst else None) with
      | Some msg => printEvent (PrintedError msg)
      | None =>
          run (if persist then createFile else ret tt) then
          let* exit := allCostsLoop persist dst reads in
          match exit with
          | Return => ret tt
          | Break =>
              run (if persist then printEvent PrintedCreated else ret tt) then
              printEvent PrintedCompleted
          end
      end
  end.

End MainSolution.

(** * [go_solution/main.go] *)

Module GoSolution.

(** Lines 114-118, the same statement as in the main solution. *)
Definition insertRow (row : list string) : M unit :=
  let* r0 := index row 0 in
  let* v := readCosts r0 in
  let* r1 := index row 1 in
  match v with
  | Some v => if gt_string v r1 then writeCosts r0 r1 else ret tt
  | None => writeCosts r0 r1
  end.

(** The [for] loop of [loadFile], lines 105-120: a reader error ends the
    process through [log.Fatalf]. *)
Fixpoint loadLoop (reads : list ReadResult) : M unit :=
  match reads with
  | [] => ret tt
  | ReadError msg :: _ => fatal
  | Row row :: rest => run insertRow row then loadLoop rest
  end.

(** [loadFile] once the menu choice is made: [SourceError] is a failed
    [os.Open], which is fatal here. *)
Definition loadFile (src : Source) : M unit :=
  match src with
  | SourceError msg => fatal
  | SourceReader reads =>
      run loadLoop reads then printEvent PrintedCompleted
  end.

(** The loop under "find longest matching prefix", lines 132-137 and
    204-209. *)
Fixpoint findLoop (input : string) (i : nat) (result : string) : M string :=
  let* v := readCosts (substring 0 i input) in
  let result := match v with Some v => v | None => result end in
  match i with
  | O => ret result
  | S j => findLoop input j result
  end.

(** [getCost], lines 125-142; [input] is what [getInput] returned. *)
Definition getCost (input : string) : M unit :=
  let* result := findLoop input (String.length input) "0" in
  printEvent (PrintedCost input result).

(** The [for] loop of [getCosts], lines 193-222.  [opened] tells whether
    [os.Create] gave a file: on a nil file every [WriteString] fails with
    [os.ErrInvalid].  A failed write is printed and the loop goes on. *)
Definition ErrInvalid : string := "invalid argument".

Fixpoint costsLoop (persist opened : bool) (dst : Dest)
  (reads : list ReadResult) : M unit :=
  match reads with
  | [] => ret tt
  | ReadError msg :: _ => fatal
  | Row row :: rest =>
      let* number := index row 0 in
      let* result := findLoop number (String.length number) "0" in
      run (if persist then
             let* err := (if opened
                          then writeString dst (exportLine number result)
                          else ret (Some ErrInvalid)) in
             match err with
             | Some msg => printEvent (PrintedError msg)
             | None => ret tt
             end
           else printEvent (PrintedCost number result)) then
      costsLoop persist opened dst rest
  end.

Definition getCosts (persist : bool) (src : Source) (dst : Dest) : M unit :=
  match src with
  | SourceError msg => fatal
  | SourceReader reads =>
      let* opened :=
        (if persist then
           match createError dst with
           | Some msg => run printEvent (PrintedError msg) then ret false
           | None => run createFile then ret true
           end
         else ret false) in
      run costsLoop persist opened dst reads then
      run (if persist then printEvent PrintedCreated else ret tt) then
      printEvent PrintedCompleted
  end.

End GoSolution.

(** * The programs as functions on the index

    These definitions are not code of the repository: they name what the
    lemmas below show the code to compute. *)

(** [v <= w]: not [v > w]. *)
Definition le_string (v w : string) : Prop := gt_string v w = false.

(** [p] is a prefix of [q], the empty prefix and [q] itself included. *)
Definition is_prefix (p q : string) : Prop := String.prefix p q = true.

Definition withCosts (m : gmap string string) (w : World) : World :=
  mkWorld m (stdout w) (resultFile w).

Definition withStdout (out : list Printed) (w : World) : World :=
  mkWorld (costs w) out (resultFile w).

Definition withResultFile (lines : list string) (w : World) : World :=
  mkWorld (costs w) (stdout w) lines.

(** The process at its start: [costs = make(map[string]string)]. *)
Definition world0 : World := mkWorld ∅ [] [].

(** What one record does to the index. *)
Definition mergeCost (m : gmap string string) (p c : string)
  : gmap string string :=
  match m !! p with
  | Some v => if gt_string v c then <[p := c]> m else m
  | None => <[p := c]> m
  end.

Definition mergeAll (m : gmap string string) (records : list (string * string))
  : gmap string string :=
  foldl (fun m r => mergeCost m r.1 r.2) m records.

(** What the scan of [getCost] computes. *)
Fixpoint scanCosts (m : gmap string string) (q : string) (i : nat)
  (result : string) : string :=
  let result := match m !! substring 0 i q with
                | Some v => v
                | None => result
                end in
  match i with
  | O => result
  | S j => scanCosts m q j result
  end.

Definition lookupCost (m : gmap string string) (q : string) : string :=
  scanCosts m q (String.length q) "0".

(** The reads of a file of two-field records, and of a file of numbers. *)
Definition recordRow (r : string * string) : ReadResult := Row [r.1; r.2].
Definition numberRow (n : string) : ReadResult := Row [n].

(** Several loads, one after the other (menu choice 1, repeated). *)
Fixpoint loadFiles (files : list (list (string * string))) : M unit :=
  match files with
  | [] => ret tt
  | f :: rest =>
      run MainSolution.loadRouteCosts (SourceReader (map recordRow f)) then
      loadFiles rest
  end.

Fixpoint goLoadFiles (files : list (list (string * string))) : M unit :=
  match files with
  | [] => ret tt
  | f :: rest =>
      run GoSolution.loadFile (SourceReader (map recordRow f)) then
      goLoadFiles rest
  end.

(** The cost the merge selects for [k]: the one among the cost stored at
    the start and the costs of the records for [k] that is not [>] any of
    them, and none when there is no such cost at all. *)
Definition least_cost (m0 : gmap string string)
  (records : list (string * string)) (k : string) (o : option string) : Prop :=
  match o with
  | None => m0 !! k = None /\ forall c, ~ In (k, c) records
  | Some v =>
      (m0 !! k = Some v \/ In (k, v) records) /\
      (forall v0, m0 !! k = Some v0 -> le_string v v0) /\
      (forall c, In (k, c) records -> le_string v c)
  end.

(** The lines and the printed costs a batch of numbers gives on the
    index [m], in the order of the numbers. *)
Definition exportLines (m : gmap string string) (numbers : list string)
  : list string :=
  map (fun n => exportLine n (lookupCost m n)) numbers.

Definition printedCosts (m : gmap string string) (numbers : list string)
  : list Printed :=
  map (fun n => PrintedCost n (lookupCost m n)) numbers.

(** The state after the numbers were resolved, one after the other. *)
Definition resolved (persist : bool) (numbers : list string) (w : World)
  : World :=
  if persist
  then withResultFile (resultFile w ++ exportLines (costs w) numbers) w
  else withStdout (stdout w ++ printedCosts (costs w) numbers) w.

(** No write on [dst] fails. *)
Definition writes_succeed (dst : Dest) : Prop :=
  forall written line, writeError dst written line = None.

(** The carrier file and the phone numbers of the project description. *)
Definition readmeRoutes : list (list string) :=
  [["+1512"; "0.04"]; ["+1415"; "0.02"]; ["+1415234"; "0.03"];
   ["+1415246"; "0.01"]].

Definition readmeIndex : gmap string string :=
  costs (MainSolution.loadRouteCosts
           (SourceReader (csvReader readmeRoutes)) world0).2.

(** The read of a line of a file of numbers: the number in the first
    field, and whatever fields follow it. *)
Definition lineRow (r : string * list string) : ReadResult :=
  Row (r.1 :: r.2).

(** A read with the fields behind the first one dropped. *)
Definition firstField (r : ReadResult) : ReadResult :=
  match r with
  | Row (number :: _) => Row [number]
  | _ => r
  end.

(** The index of the longest-prefix example. *)
Definition exampleIndex : gmap string string :=
  <["+1" := "0.05"]> (<["+1415" := "0.02"]> (<["+1415234" := "0.03"]> ∅)).

(** The index [m'] has every key of [m], with a cost that is not [>] the
    one [m] has. *)
Definition index_grows (m m' : gmap string string) : Prop :=
  forall k v, m !! k = Some v ->
    exists v', m' !! k = Some v' /\ le_string v' v.

(** Every record the reader returns has at least two fields. *)
Definition two_fields (reads : list ReadResult) : Prop :=
  Forall (fun r => match r with
                   | Row row => (2 <= List.length row)%nat
                   | ReadError _ => True
                   end) reads.

(** The destination takes the lines, one after the other, when it holds
    [written]. *)
Fixpoint accepts (dst : Dest) (written lines : list string) : Prop :=
  match lines with
  | [] => True
  | line :: rest =>
      writeError dst written line = None /\
      accepts dst (written ++ [line]) rest
  end.

(** A destination that refuses the line [bad] and takes every other. *)
Definition refusing (bad msg : string) : Dest :=
  mkDest None (fun _ line => if String.eqb line bad then Some msg else None).

(** * The menu around the index

    The functions of the two programs that talk to the operator:
    [getInput], [listFiles], the file selection in front of a load or a
    batch, and the menu loop of [main] / [mainMenu]. *)

(** ** Library functions *)

(** [strings.Replace(sentence, "\n", "", -1)]: every newline byte is
    taken out. *)
Fixpoint removeNewlines (sentence : string) : string :=
  match sentence with
  | EmptyString => EmptyString
  | String c rest =>
      if Ascii.eqb c (ascii_of_nat 10) then removeNewlines rest
      else String c (removeNewlines rest)
  end.

(** [strings.Contains(s, substr)]: [substr] begins at some position of
    [s]. *)
Fixpoint Contains (s substr : string) : bool :=
  String.prefix substr s ||
  match s with
  | EmptyString => false
  | String _ rest => Contains rest substr
  end.

(** [strconv.Atoi] with a 64-bit [int]: an optional sign, then at least
    one character, all of them decimal digits, and a value that fits;
    [None] stands for a non-nil error. *)
Definition digitOf (c : ascii) : option Z :=
  let n := Z.of_nat (nat_of_ascii c) in
  if ((48 <=? n) && (n <=? 57))%Z then Some (n - 48)%Z else None.

Fixpoint digitsValue (s : string) (acc : Z) : option Z :=
  match s with
  | EmptyString => Some acc
  | String c rest =>
      match digitOf c with
      | Some d => digitsValue rest (10 * acc + d)%Z
      | None => None
      end
  end.

Definition Atoi (s : string) : option Z :=
  let '(negative, body) :=
    match s with
    | String "-"%char rest => (true, rest)
    | String "+"%char rest => (false, rest)
    | _ => (false, s)
    end in
  match body with
  | EmptyString => None
  | _ =>
      match digitsValue body 0 with
      | Some n =>
          let v := if negative then (- n)%Z else n in
          if ((- 2 ^ 63 <=? v) && (v <=? 2 ^ 63 - 1))%Z then Some v else None
      | None => None
      end
  end.

(** [files[i]] for an [int] [i]: [None] is the panic of an index out of
    range. *)
Definition fileAt (files : list string) (i : Z) : option string :=
  if (i <? 0)%Z then None else nth_error files (Z.to_nat i).

(** ** The console *)

(** What the menu functions themselves print; it is kept apart from what
    the actions print into [stdout]. *)
Inductive MenuEvent : Type :=
| Welcome (loaded : nat)    (* the welcome block with len(costs), the five
                               choices and "Please make a selection:" *)
| Prompt                    (* fmt.Print("> ") *)
| EnterNumber               (* "Enter a number with the prefix:" *)
| InvalidInput              (* "Invalid input!" *)
| LoadAFile                 (* "Load a file:" *)
| FileChoice (i : nat) (name : string)   (* i ".) " name *)
| BackChoice                (* "q.) Main Menu" *)
| PleaseSelect.             (* "Please make a selection:" *)

(** What the process finds around it and does not change: the listing of
    [../data] ([ioutil.ReadDir]: an error, or the names in order), each
    file of it opened and read through a CSV reader, and the destination
    [os.Create("./results/" + name)] gives. *)
Record Env : Type := mkEnv {
  readDir : string + list string;
  openFile : string -> Source;
  createIn : string -> Dest
}.

(** The process with its console: [stdin] holds what the coming calls of
    [ReadString('\n')] return, one sentence per call; when it is empty
    the call returns the empty string with [io.EOF]. *)
Record Console : Type := mkConsole {
  world : World;
  stdin : list string;
  menu : list MenuEvent
}.

Definition C (A : Type) : Type := Console -> Outcome A * Console.

Definition retC {A} (a : A) : C A := fun s => (Returned a, s).

Definition bindC {A B} (c : C A) (k : A -> C B) : C B :=
  fun s =>
    match c s with
    | (Returned a, s') => k a s'
    | (Panicked, s') => (Panicked, s')
    | (Exited, s') => (Exited, s')
    end.

Notation "'let+' x ':=' c 'in' k" := (bindC c (fun x => k))
  (at level 10, x name, c at level 100, k at level 200, only parsing).
Notation "'exec' c 'then' k" := (bindC c (fun _ => k))
  (at level 10, c at level 100, k at level 200, only parsing).

Definition panicC {A} : C A := fun s => (Panicked, s).

(** An action on the state of the process, run from the console. *)
Definition onWorld {A} (c : M A) : C A :=
  fun s =>
    let '(o, w) := c (world s) in (o, mkConsole w (stdin s) (menu s)).

Definition printMenu (events : list MenuEvent) : C unit :=
  fun s => (Returned tt, mkConsole (world s) (stdin s) (menu s ++ events)).

(** [len(costs)] *)
Definition lenCosts : C nat := fun s => (Returned (size (costs (world s))), s).

(** How the menu loop ended within the iterations it was given. *)
Inductive Ran : Type := Finished | OutOfFuel.

(** The lines of a file selection: the title, the numbered choices, the
    way back and the request. *)
Definition selectionLines (files : list string) : list MenuEvent :=
  LoadAFile :: imap (fun i name => FileChoice (S i) name) files
  ++ [BackChoice; PleaseSelect].

(** The files of [../data] whose name contains [flt]. *)
Definition matching (flt : string) (allFiles : list string) : list string :=
  List.filter (fun name => Contains name flt) allFiles.

(** * The menu of the main solution *)

Module MainMenu.

(** [getInput], lines 76-81. *)
Definition getInput : C string :=
  fun s =>
    let s' := mkConsole (world s) (List.tl (stdin s)) (menu s ++ [Prompt]) in
    match stdin s with
    | [] => (Returned (removeNewlines ""), s')
    | sentence :: _ => (Returned (removeNewlines sentence), s')
    end.

(** [listFiles], lines 86-125: the file name and the error ([None] is
    [nil]). *)
Definition listFiles (env : Env) (flt : string) : C (string * option string) :=
  match readDir env with
  | inl err => retC ("", Some err)
  | inr allFiles =>
      let files := matching flt allFiles in
      exec printMenu (selectionLines files) then
      let+ choice := getInput in
      match Atoi choice with
      | None => retC ("", Some "")
      | Some index =>
          if ((index <? 0) || (Z.of_nat (List.length files) <=? index))%Z
          then retC ("", Some "invalid option: index out of range")
          else
            match fileAt files (index - 1) with
            | Some name => retC (name, None)
            | None => panicC
            end
      end
  end.

(** [loadRouteCosts], lines 129-178, with its file selection. *)
Definition loadRouteCosts (env : Env) : C unit :=
  let+ selected := listFiles env "route" in
  match selected with
  | (_, Some err) => onWorld (printEvent (PrintedError err))
  | (fileName, None) =>
      onWorld (MainSolution.loadRouteCosts (openFile env fileName))
  end.

(** [getAllCosts], lines 200-278, with its file selection. *)
Definition getAllCosts (env : Env) (persist : bool) : C unit :=
  let+ selected := listFiles env "phone" in
  match selected with
  | (_, Some err) => onWorld (printEvent (PrintedError err))
  | (fileName, None) =>
      onWorld (MainSolution.getAllCosts persist (openFile env fileName)
                 (createIn env fileName))
  end.

(** [main], lines 43-72: [fuel] bounds the number of times the menu is
    shown. *)
Fixpoint main (env : Env) (fuel : nat) : C Ran :=
  match fuel with
  | O => retC OutOfFuel
  | S fuel =>
      let+ loaded := lenCosts in
      exec printMenu [Welcome loaded] then
      let+ choice := getInput in
      if String.eqb choice "1" then
        exec loadRouteCosts env then main env fuel
      else if String.eqb choice "2" then
        exec printMenu [EnterNumber] then
        let+ prefix := getInput in
        let+ result := onWorld (MainSolution.getCost prefix) in
        exec onWorld (printEvent (PrintedCost prefix result)) then
        main env fuel
      else if String.eqb choice "3" then
        exec getAllCosts env false then main env fuel
      else if String.eqb choice "4" then
        exec getAllCosts env true then main env fuel
      else if String.eqb choice "5" then
        retC Finished
      else
        exec printMenu [InvalidInput] then main env fuel
  end.

End MainMenu.

(** * The menu of [go_solution/main.go] *)

Module GoMenu.

(** [getInput], lines 58-63. *)
Definition getInput : C string :=
  fun s =>
    let s' := mkConsole (world s) (List.tl (stdin s)) (menu s ++ [Prompt]) in
    match stdin s with
    | [] => (Returned (removeNewlines ""), s')
    | sentence :: _ => (Returned (removeNewlines sentence), s')
    end.

(** The selection at the head of [loadFile] (lines 67-98) and of
    [getCosts] (lines 145-176): the error of [ReadDir] is dropped, a
    choice that is no number makes the function return ([None]), and
    [files[index-1]] is read without a check. *)
Definition selectFile (env : Env) (flt : string) : C (option string) :=
  let allFiles := match readDir env with
                  | inl _ => []
                  | inr names => names
                  end in
  let files := matching flt allFiles in
  exec printMenu (selectionLines files) then
  let+ choice := getInput in
  match Atoi choice with
  | None => retC None
  | Some index =>
      match fileAt files (index - 1) with
      | Some name => retC (Some name)
      | None => panicC
      end
  end.

(** [loadFile], lines 65-123. *)
Definition loadFile (env : Env) : C unit :=
  let+ selected := selectFile env "route" in
  match selected with
  | None => retC tt
  | Some name => onWorld (GoSolution.loadFile (openFile env name))
  end.

(** [getCost], lines 125-142. *)
Definition getCost : C unit :=
  exec printMenu [EnterNumber] then
  let+ input := getInput in
  onWorld (GoSolution.getCost input).

(** [getCosts], lines 144-231. *)
Definition getCosts (env : Env) (persist : bool) : C unit :=
  let+ selected := selectFile env "phone" in
  match selected with
  | None => retC tt
  | Some name =>
      onWorld (GoSolution.getCosts persist (openFile env name)
                 (createIn env name))
  end.

(** [mainMenu], lines 29-55; [main] calls it. *)
Fixpoint mainMenu (env : Env) (fuel : nat) : C Ran :=
  match fuel with
  | O => retC OutOfFuel
  | S fuel =>
      let+ loaded := lenCosts in
      exec printMenu [Welcome loaded] then
      let+ choice := getInput in
      if String.eqb choice "1" then
        exec loadFile env then mainMenu env fuel
      else if String.eqb choice "2" then
        exec getCost then mainMenu env fuel
      else if String.eqb choice "3" then
        exec getCosts env false then mainMenu env fuel
      else if String.eqb choice "4" then
        exec getCosts env true then mainMenu env fuel
      else if String.eqb choice "5" then
        retC Finished
      else
        exec printMenu [InvalidInput] then mainMenu env fuel
  end.

Definition main (env : Env) (fuel : nat) : C Ran := mainMenu env fuel.

End GoMenu.

(** The line holds no newline byte. *)
Definition no_newline (line : string) : Prop :=
  ~ In (ascii_of_nat 10) (list_ascii_of_string line).

(** The console after one call of [getInput]. *)
Definition afterInput (s : Console) : Console :=
  mkConsole (world s) (List.tl (stdin s)) (menu s ++ [Prompt]).

(** What [getInput] returns on the console [s]. *)
Definition typed (s : Console) : string :=
  removeNewlines (List.hd "" (stdin s)).

(** The console after a file selection was shown and answered. *)
Definition afterSelection (files : list string) (s : Console) : Console :=
  mkConsole (world s) (List.tl (stdin s))
    ((menu s ++ selectionLines files) ++ [Prompt]).

(** From the console [s] to the console [s']: the index has grown and
    the input that is left is a rest of the input there was. *)
Definition session_step (s s' : Console) : Prop :=
  index_grows (costs (world s)) (costs (world s')) /\
  stdin s' `suffix_of` stdin s.

(** The console action [c] makes a [session_step], however it ends. *)
Definition steps {A} (c : C A) : Prop :=
  forall s, session_step s (c s).2.

(** What the menu shows in one round on an answer it does not know. *)
Definition invalidRound (loaded : nat) : list MenuEvent :=
  [Welcome loaded; Prompt; InvalidInput].

(** The menu loop [c] finishes only when the answer "5" was among the
    sentences of the input. *)
Definition ends_on_five (c : C Ran) : Prop :=
  forall s s',
    c s = (Returned Finished, s') ->
    exists sentence, In sentence (stdin s) /\ removeNewlines sentence = "5".

(** * Properties *)

(** ** The order [>] on strings is a strict total order *)

Section StringOrder.

Lemma compare_refl (s : string) : String.compare s s = Eq.
Proof.
  pose proof (String.compare_antisym s s) as H.
  by destruct (String.compare s s).
Qed.

Lemma ascii_compare_lt_trans (a b c : ascii) :
  Ascii.compare a b = Lt -> Ascii.compare b c = Lt -> Ascii.compare a c = Lt.
Proof.
  unfold Ascii.compare. rewrite !N.compare_lt_iff. apply N.lt_trans.
Qed.

Lemma compare_lt_trans (s1 : string) :
  forall s2 s3,
    String.compare s1 s2 = Lt -> String.compare s2 s3 = Lt ->
    String.compare s1 s3 = Lt.
Proof.
  induction s1 as [|a s1 IH]; intros [|b s2] [|c s3]; simpl; try done.
  destruct (Ascii.compare a b) eqn:Hab; try done.
  - apply Ascii.compare_eq_iff in Hab as ->.
    destruct (Ascii.compare b c); try done. apply IH.
  - destruct (Ascii.compare b c) eqn:Hbc; try done.
    + apply Ascii.compare_eq_iff in Hbc as <-. by rewrite Hab.
    + by rewrite (ascii_compare_lt_trans a b c).
Qed.

Lemma gt_string_irrefl (v : string) : gt_string v v = false.
Proof. unfold gt_string, String.ltb. by rewrite compare_refl. Qed.

Lemma gt_string_asym (v w : string) :
  gt_string v w = true -> gt_string w v = false.
Proof.
  unfold gt_string, String.ltb. rewrite (String.compare_antisym v w).
  by destruct (String.compare w v).
Qed.

Lemma gt_string_trans (u v w : string) :
  gt_string u v = true -> gt_string v w = true -> gt_string u w = true.
Proof.
  unfold gt_string, String.ltb. intros Huv Hvw.
  destruct (String.compare v u) eqn:E1; try done.
  destruct (String.compare w v) eqn:E2; try done.
  by rewrite (compare_lt_trans w v u).
Qed.

Lemma gt_string_total (v w : string) :
  gt_string v w = false -> gt_string w v = false -> v = w.
Proof.
  unfold gt_string, String.ltb. rewrite (String.compare_antisym v w).
  destruct (String.compare w v) eqn:E; try done.
  intros _ _. symmetry. by apply String.compare_eq_iff.
Qed.

Lemma le_string_refl v : le_string v v.
Proof. apply gt_string_irrefl. Qed.

Lemma le_string_antisym v w : le_string v w -> le_string w v -> v = w.
Proof. apply gt_string_total. Qed.

Lemma le_string_trans u v w : le_string u v -> le_string v w -> le_string u w.
Proof.
  unfold le_string. intros Huv Hvw.
  destruct (gt_string u w) eqn:Huw; [|done].
  destruct (gt_string w v) eqn:Hwv.
  - by rewrite (gt_string_trans u w v) in Huv.
  - rewrite (gt_string_total v w Hvw Hwv) in Huv. congruence.
Qed.

Lemma lt_le_string v w : gt_string v w = true -> le_string w v.
Proof. apply gt_string_asym. Qed.

End StringOrder.

(** ** Running the code *)

Lemma withCosts_id w : withCosts (costs w) w = w.
Proof. by destruct w. Qed.

Lemma costs_withCosts m w : costs (withCosts m w) = m.
Proof. done. Qed.

Lemma withCosts_withCosts m m' w : withCosts m (withCosts m' w) = withCosts m w.
Proof. done. Qed.

Lemma insertRow_run p c rest w :
  MainSolution.insertRow (p :: c :: rest) w
  = (Returned tt, withCosts (mergeCost (costs w) p c) w).
Proof.
  unfold MainSolution.insertRow, mergeCost, bind, index, readCosts; simpl.
  destruct (costs w !! p) as [v|]; [|done].
  destruct (gt_string v c); [done|].
  unfold ret. by rewrite withCosts_id.
Qed.

Lemma insertRow_short_panics row w :
  (List.length row < 2)%nat -> MainSolution.insertRow row w = (Panicked, w).
Proof.
  destruct row as [|p [|c rest]]; simpl; try lia; done.
Qed.

Lemma go_insertRow_eq : GoSolution.insertRow = MainSolution.insertRow.
Proof. reflexivity. Qed.

Lemma go_findLoop_eq : GoSolution.findLoop = MainSolution.getCostLoop.
Proof. reflexivity. Qed.

Lemma getCostLoop_run q i r w :
  MainSolution.getCostLoop q i r w = (Returned (scanCosts (costs w) q i r), w).
Proof.
  revert r. induction i as [|i IH]; intros r; simpl.
  - unfold bind, readCosts. by destruct (costs w !! _).
  - unfold bind, readCosts. apply IH.
Qed.

Lemma getCost_run q w :
  MainSolution.getCost q w = (Returned (lookupCost (costs w) q), w).
Proof. apply getCostLoop_run. Qed.

Lemma go_getCost_run q w :
  GoSolution.getCost q w
  = (Returned tt,
     withStdout (stdout w ++ [PrintedCost q (lookupCost (costs w) q)]) w).
Proof.
  unfold GoSolution.getCost, bind. rewrite go_findLoop_eq, getCostLoop_run.
  done.
Qed.

Lemma loadLoop_records rs w :
  MainSolution.loadLoop (map recordRow rs) w
  = (Returned Break, withCosts (mergeAll (costs w) rs) w).
Proof.
  revert w. induction rs as [|[p c] rs IH]; intros w; simpl.
  - unfold ret. by rewrite withCosts_id.
  - unfold bind. rewrite insertRow_run, IH. done.
Qed.

Lemma loadLoop_stops rs msg rest w :
  MainSolution.loadLoop (map recordRow rs ++ ReadError msg :: rest) w
  = (Returned Return,
     withStdout (stdout w ++ [PrintedError msg])
       (withCosts (mergeAll (costs w) rs) w)).
Proof.
  revert w. induction rs as [|[p c] rs IH]; intros w; simpl.
  - unfold bind, printEvent, ret, withStdout; simpl. by destruct w.
  - unfold bind. rewrite insertRow_run, IH. done.
Qed.

Lemma go_loadLoop_records rs w :
  GoSolution.loadLoop (map recordRow rs) w
  = (Returned tt, withCosts (mergeAll (costs w) rs) w).
Proof.
  revert w. induction rs as [|[p c] rs IH]; intros w; simpl.
  - unfold ret. by rewrite withCosts_id.
  - unfold bind. rewrite go_insertRow_eq, insertRow_run, IH. done.
Qed.

Lemma go_loadLoop_stops rs msg rest w :
  GoSolution.loadLoop (map recordRow rs ++ ReadError msg :: rest) w
  = (Exited, withCosts (mergeAll (costs w) rs) w).
Proof.
  revert w. induction rs as [|[p c] rs IH]; intros w; simpl.
  - unfold fatal. by rewrite withCosts_id.
  - unfold bind. rewrite go_insertRow_eq, insertRow_run, IH. done.
Qed.

Lemma csvReadFrom_field_count expected before bad rest :
  Forall (fun r => List.length r = expected) before ->
  List.length bad <> expected ->
  forall line,
    csvReadFrom expected line (before ++ bad :: rest)
    = (map Row before
        ++ ReadError (fieldCountError (line + List.length before))
        :: csvReadFrom expected (S (line + List.length before)) rest)%list.
Proof.
  intros Hbefore Hbad.
  induction Hbefore as [|r before Hr _ IH]; intros line; simpl.
  - unfold csvRead at 1. rewrite (proj2 (Nat.eqb_neq _ _) Hbad).
    by rewrite Nat.add_0_r.
  - unfold csvRead at 1. rewrite Hr, Nat.eqb_refl. f_equal.
    rewrite IH. by rewrite <- plus_n_Sm.
Qed.

(** The reader rejects the first record whose number of fields is not
    the one of the first record of the file, and names its line. *)
Lemma csvReader_field_count first before bad rest :
  Forall (fun r => List.length r = List.length first) before ->
  List.length bad <> List.length first ->
  csvReader (first :: before ++ bad :: rest)
  = Row first :: map Row before
      ++ ReadError (fieldCountError (2 + List.length before))
      :: csvReadFrom (List.length first) (3 + List.length before) rest.
Proof.
  intros Hbefore Hbad. simpl. f_equal.
  by rewrite (csvReadFrom_field_count _ before bad rest Hbefore Hbad).
Qed.

(** ** Prefixes and slices *)

Lemma substring_0_0 (q : string) : substring 0 0 q = "".
Proof. by destruct q. Qed.

Lemma length_substring_0 (i : nat) :
  forall q, (i <= String.length q)%nat -> String.length (substring 0 i q) = i.
Proof.
  induction i as [|i IH]; intros q Hi.
  - by rewrite substring_0_0.
  - destruct q as [|a q]; simpl in *; [lia|]. rewrite IH; lia.
Qed.

Lemma prefix_length (p : string) :
  forall q, is_prefix p q -> (String.length p <= String.length q)%nat.
Proof.
  unfold is_prefix.
  induction p as [|a p IH]; intros q H; simpl; [lia|].
  destruct q as [|b q]; simpl in *; [done|].
  destruct (ascii_dec a b); [|done]. apply IH in H. lia.
Qed.

Lemma prefix_is_slice p q :
  is_prefix p q ->
  exists i, (i <= String.length q)%nat /\ p = substring 0 i q.
Proof.
  intros H. exists (String.length p). split.
  - by apply prefix_length.
  - symmetry. by apply prefix_correct.
Qed.

Lemma slice_is_prefix (i : nat) :
  forall q, (i <= String.length q)%nat -> is_prefix (substring 0 i q) q.
Proof.
  intros q Hi. apply prefix_correct. by rewrite length_substring_0.
Qed.

Lemma slice_nonempty i q :
  (0 < i <= String.length q)%nat -> substring 0 i q <> "".
Proof.
  intros Hi E. apply (f_equal String.length) in E.
  rewrite length_substring_0 in E; simpl in E; lia.
Qed.

(** ** What the scan returns *)

Lemma scanCosts_none m q i r :
  (forall j, (j <= i)%nat -> m !! substring 0 j q = None) ->
  scanCosts m q i r = r.
Proof.
  revert r. induction i as [|i IH]; intros r H; simpl.
  - by rewrite (H 0%nat).
  - rewrite (H (S i)); [|lia]. apply IH. intros j Hj. apply H. lia.
Qed.

(** The scan has no [break]: the value it returns is the one of the
    shortest slice that is a key. *)
Lemma scanCosts_shortest m q i r j v :
  (j <= i)%nat ->
  m !! substring 0 j q = Some v ->
  (forall k, (k < j)%nat -> m !! substring 0 k q = None) ->
  scanCosts m q i r = v.
Proof.
  revert r. induction i as [|i IH]; intros r Hj Hv Hlow.
  - assert (j = 0)%nat as -> by lia. simpl. by rewrite Hv.
  - destruct (decide (j = S i)) as [->|Hne].
    + simpl. rewrite Hv. apply scanCosts_none. intros k Hk. apply Hlow. lia.
    + simpl. apply IH; [lia|done|done].
Qed.

(** The value is the initial one when no slice is a key, and otherwise
    the value of a stored slice. *)
Lemma scanCosts_source m q i r :
  ((forall j, (j <= i)%nat -> m !! substring 0 j q = None) /\
   scanCosts m q i r = r) \/
  exists j, (j <= i)%nat /\ m !! substring 0 j q = Some (scanCosts m q i r).
Proof.
  revert r. induction i as [|i IH]; intros r; simpl.
  - destruct (m !! substring 0 0 q) eqn:E.
    + right. exists 0%nat. by rewrite E.
    + left. split; [|done]. intros j Hj. by assert (j = 0)%nat as -> by lia.
  - destruct (m !! _) as [v|] eqn:E.
    + right. destruct (IH v) as [[_ Hv]|(j & Hj & Hs)].
      * exists (S i). split; [lia|]. by rewrite Hv.
      * exists j. split; [lia|done].
    + destruct (IH r) as [[Hn Hv]|(j & Hj & Hs)].
      * left. split; [|done]. intros j Hj.
        destruct (decide (j = S i)) as [->|Hne]; [done|]. apply Hn. lia.
      * right. exists j. split; [lia|done].
Qed.

Lemma lookupCost_no_prefix m q :
  (forall p, is_prefix p q -> m !! p = None) -> lookupCost m q = "0".
Proof.
  intros H. apply scanCosts_none. intros j Hj. apply H.
  by apply slice_is_prefix.
Qed.

Lemma lookupCost_empty q : lookupCost ∅ q = "0".
Proof. apply lookupCost_no_prefix. intros p _. apply lookup_empty. Qed.

Lemma lookupCost_empty_prefix m q c :
  m !! "" = Some c -> lookupCost m q = c.
Proof.
  intros H.
  apply (scanCosts_shortest m q (String.length q) "0" 0%nat c); [lia| |lia].
  by rewrite substring_0_0.
Qed.

Lemma lookupCost_zero m q :
  lookupCost m q = "0" ->
  (forall p, is_prefix p q -> m !! p = None) \/
  (exists p, is_prefix p q /\ m !! p = Some "0").
Proof.
  intros H0. unfold lookupCost in H0.
  destruct (scanCosts_source m q (String.length q) "0")
    as [[Hn _]|(j & Hj & Hs)].
  - left. intros p Hp. apply prefix_is_slice in Hp as (i & Hi & ->).
    by apply Hn.
  - right. exists (substring 0 j q). split; [by apply slice_is_prefix|].
    by rewrite Hs, H0.
Qed.

(** ** What the merge stores *)

Lemma lookup_mergeCost m p c k :
  mergeCost m p c !! k =
  if decide (k = p) then
    Some (match m !! p with
          | Some v => if gt_string v c then c else v
          | None => c
          end)
  else m !! k.
Proof.
  unfold mergeCost. case_decide as Hk.
  - subst k. destruct (m !! p) as [v|] eqn:E.
    + destruct (gt_string v c); [apply lookup_insert_eq|done].
    + apply lookup_insert_eq.
  - destruct (m !! p) as [v|]; [destruct (gt_string v c)|];
      by rewrite ?lookup_insert_ne.
Qed.

Lemma mergeCost_idempotent m p c :
  mergeCost (mergeCost m p c) p c = mergeCost m p c.
Proof.
  unfold mergeCost at 1. rewrite lookup_mergeCost.
  rewrite decide_True by done.
  destruct (m !! p) as [v|] eqn:E.
  - destruct (gt_string v c) eqn:G.
    + by rewrite gt_string_irrefl.
    + by rewrite G.
  - by rewrite gt_string_irrefl.
Qed.

Lemma mergeAll_cons m r rs :
  mergeAll m (r :: rs) = mergeAll (mergeCost m r.1 r.2) rs.
Proof. done. Qed.

Lemma mergeAll_app m rs1 rs2 :
  mergeAll m (rs1 ++ rs2) = mergeAll (mergeAll m rs1) rs2.
Proof. apply foldl_app. Qed.

Lemma mergeAll_least (rs : list (string * string)) :
  forall m0 k, least_cost m0 rs k (mergeAll m0 rs !! k).
Proof.
  induction rs as [|[p c] rs IH]; intros m0 k.
  - simpl. destruct (m0 !! k) as [v|] eqn:E; simpl.
    + split; [by left|]. split; [|done].
      intros v0 Hv0. rewrite E in Hv0. injection Hv0 as <-.
      apply le_string_refl.
    + split; [done|]. intros c [].
  - rewrite mergeAll_cons. simpl.
    specialize (IH (mergeCost m0 p c) k).
    destruct (mergeAll (mergeCost m0 p c) rs !! k) as [v|]; simpl in *;
      rewrite lookup_mergeCost in IH.
    + destruct IH as (Hsrc & Hold & Hrec). case_decide as Hk.
      * subst k.
        set (v1 := match m0 !! p with
                   | Some v0 => if gt_string v0 c then c else v0
                   | None => c
                   end) in *.
        assert (le_string v v1) as Hv1 by by apply Hold.
        assert (le_string v1 c) as Hc.
        { subst v1. destruct (m0 !! p) as [v0|]; [|apply le_string_refl].
          destruct (gt_string v0 c) eqn:G; [apply le_string_refl|done]. }
        assert (forall v0, m0 !! p = Some v0 -> le_string v1 v0) as H0.
        { intros v0 E. subst v1. rewrite E.
          destruct (gt_string v0 c) eqn:G;
            [by apply lt_le_string|apply le_string_refl]. }
        split; [|split].
        -- destruct Hsrc as [[= Hsrc]|Hin]; [|by right; right].
           subst v1. destruct (m0 !! p) as [v0|] eqn:E.
           ++ destruct (gt_string v0 c).
              ** right. left. by rewrite Hsrc.
              ** left. by rewrite Hsrc.
           ++ right. left. by rewrite Hsrc.
        -- intros v0 E. apply le_string_trans with v1; auto.
        -- intros c' [[= <-]|Hin]; [by apply le_string_trans with v1|auto].
      * split; [|split]; [|done|].
        -- destruct Hsrc as [?|?]; [by left|by right; right].
        -- intros c' [[= ? ?]|Hin]; [congruence|auto].
    + destruct IH as (Hnone & Hrec). case_decide as Hk; [done|].
      split; [done|]. intros c' [[= ? ?]|Hin]; [congruence|by apply (Hrec c')].
Qed.

Lemma least_cost_unique m0 rs1 rs2 k o1 o2 :
  (forall r, In r rs1 <-> In r rs2) ->
  least_cost m0 rs1 k o1 -> least_cost m0 rs2 k o2 -> o1 = o2.
Proof.
  intros Hset H1 H2.
  destruct o1 as [v1|], o2 as [v2|]; simpl in *.
  - destruct H1 as (S1 & O1 & R1), H2 as (S2 & O2 & R2).
    f_equal. apply le_string_antisym.
    + destruct S2 as [E|Hin]; [by apply O1|]. apply R1. by apply Hset.
    + destruct S1 as [E|Hin]; [by apply O2|]. apply R2. by apply Hset.
  - destruct H1 as (S1 & _), H2 as (E2 & N2).
    destruct S1 as [E|Hin]; [congruence|]. apply Hset in Hin. by apply N2 in Hin.
  - destruct H2 as (S2 & _), H1 as (E1 & N1).
    destruct S2 as [E|Hin]; [congruence|]. apply Hset in Hin. by apply N1 in Hin.
  - done.
Qed.

(** The index after a load depends on the set of records only. *)
Lemma mergeAll_same_records m rs1 rs2 :
  (forall r, In r rs1 <-> In r rs2) -> mergeAll m rs1 = mergeAll m rs2.
Proof.
  intros Hset. apply map_eq. intros k.
  apply (least_cost_unique m rs1 rs2 k); [done| |]; apply mergeAll_least.
Qed.

Lemma mergeAll_permutation m rs1 rs2 :
  Permutation rs1 rs2 -> mergeAll m rs1 = mergeAll m rs2.
Proof.
  intros HP. apply mergeAll_same_records. intros r. split.
  - by apply Permutation_in.
  - apply Permutation_in. by symmetry.
Qed.

Lemma loadRouteCosts_records rs w :
  MainSolution.loadRouteCosts (SourceReader (map recordRow rs)) w
  = (Returned tt,
     withStdout (stdout w ++ [PrintedCompleted])
       (withCosts (mergeAll (costs w) rs) w)).
Proof.
  unfold MainSolution.loadRouteCosts, bind. by rewrite loadLoop_records.
Qed.

Lemma go_loadFile_records rs w :
  GoSolution.loadFile (SourceReader (map recordRow rs)) w
  = (Returned tt,
     withStdout (stdout w ++ [PrintedCompleted])
       (withCosts (mergeAll (costs w) rs) w)).
Proof.
  unfold GoSolution.loadFile, bind. by rewrite go_loadLoop_records.
Qed.

Lemma loadFiles_run files :
  forall w, exists out,
    loadFiles files w
    = (Returned tt,
       withStdout out (withCosts (mergeAll (costs w) (concat files)) w)).
Proof.
  induction files as [|f files IH]; intros w; cbn [loadFiles concat].
  - exists (stdout w). unfold ret. by destruct w.
  - unfold bind. rewrite loadRouteCosts_records.
    destruct (IH (withStdout (stdout w ++ [PrintedCompleted])
                    (withCosts (mergeAll (costs w) f) w))) as [out ->].
    exists out. by rewrite mergeAll_app.
Qed.

Lemma goLoadFiles_run files :
  forall w, exists out,
    goLoadFiles files w
    = (Returned tt,
       withStdout out (withCosts (mergeAll (costs w) (concat files)) w)).
Proof.
  induction files as [|f files IH]; intros w; cbn [goLoadFiles concat].
  - exists (stdout w). unfold ret. by destruct w.
  - unfold bind. rewrite go_loadFile_records.
    destruct (IH (withStdout (stdout w ++ [PrintedCompleted])
                    (withCosts (mergeAll (costs w) f) w))) as [out ->].
    exists out. by rewrite mergeAll_app.
Qed.

(** ** Running a batch *)

Lemma resolved_nil persist w : resolved persist [] w = w.
Proof.
  unfold resolved, exportLines, printedCosts. destruct persist, w; simpl;
    by rewrite app_nil_r.
Qed.

Lemma resolved_cons persist n ns w :
  resolved persist ns (resolved persist [n] w) = resolved persist (n :: ns) w.
Proof.
  unfold resolved, exportLines, printedCosts, withResultFile, withStdout.
  destruct persist; simpl; by rewrite <- app_assoc.
Qed.

Lemma costs_resolved persist ns w : costs (resolved persist ns w) = costs w.
Proof. by destruct persist. Qed.

Lemma allCostsLoop_numbers persist dst ns :
  (persist = true -> writes_succeed dst) ->
  forall w,
    MainSolution.allCostsLoop persist dst (map numberRow ns) w
    = (Returned Break, resolved persist ns w).
Proof.
  intros Hd. induction ns as [|n ns IH]; intros w.
  - simpl. unfold ret. by rewrite resolved_nil.
  - rewrite <- resolved_cons, <- IH.
    simpl. unfold bind, index; simpl. rewrite getCost_run.
    destruct persist; [|done].
    unfold writeString. by rewrite (Hd eq_refl).
Qed.

Lemma allCostsLoop_stops persist dst ns msg rest :
  (persist = true -> writes_succeed dst) ->
  forall w,
    MainSolution.allCostsLoop persist dst
      (map numberRow ns ++ ReadError msg :: rest) w
    = (Returned Return,
       withStdout (stdout (resolved persist ns w) ++ [PrintedError msg])
         (resolved persist ns w)).
Proof.
  intros Hd. induction ns as [|n ns IH]; intros w.
  - rewrite resolved_nil. done.
  - rewrite <- resolved_cons, <- IH.
    simpl. unfold bind, index; simpl. rewrite getCost_run.
    destruct persist; [|done].
    unfold writeString. by rewrite (Hd eq_refl).
Qed.

Lemma go_costsLoop_numbers persist dst ns :
  (persist = true -> writes_succeed dst) ->
  forall w,
    GoSolution.costsLoop persist persist dst (map numberRow ns) w
    = (Returned tt, resolved persist ns w).
Proof.
  intros Hd. induction ns as [|n ns IH]; intros w.
  - simpl. unfold ret. by rewrite resolved_nil.
  - rewrite <- resolved_cons, <- IH.
    simpl. unfold bind, index; simpl. rewrite go_findLoop_eq, getCostLoop_run.
    destruct persist; [|done].
    unfold writeString. by rewrite (Hd eq_refl).
Qed.

Lemma go_costsLoop_stops persist dst ns msg rest :
  (persist = true -> writes_succeed dst) ->
  forall w,
    GoSolution.costsLoop persist persist dst
      (map numberRow ns ++ ReadError msg :: rest) w
    = (Exited, resolved persist ns w).
Proof.
  intros Hd. induction ns as [|n ns IH]; intros w.
  - rewrite resolved_nil. done.
  - rewrite <- resolved_cons, <- IH.
    simpl. unfold bind, index; simpl. rewrite go_findLoop_eq, getCostLoop_run.
    destruct persist; [|done].
    unfold writeString. by rewrite (Hd eq_refl).
Qed.

Lemma getAllCosts_numbers dst ns w :
  createError dst = None -> writes_succeed dst ->
  MainSolution.getAllCosts true (SourceReader (map numberRow ns)) dst w
  = (Returned tt,
     withStdout (stdout w ++ [PrintedCreated; PrintedCompleted])
       (withResultFile (exportLines (costs w) ns) w)).
Proof.
  intros Hc Hd. unfold MainSolution.getAllCosts. rewrite Hc.
  unfold bind at 1. unfold createFile.
  unfold bind at 1.
  rewrite (allCostsLoop_numbers true dst ns (fun _ => Hd)).
  unfold bind, printEvent, resolved, withStdout, withResultFile; simpl.
  by rewrite <- app_assoc.
Qed.

Lemma getAllCosts_numbers_print dst ns w :
  MainSolution.getAllCosts false (SourceReader (map numberRow ns)) dst w
  = (Returned tt,
     withStdout (stdout w ++ printedCosts (costs w) ns ++ [PrintedCompleted])
       w).
Proof.
  unfold MainSolution.getAllCosts.
  unfold bind at 1. unfold ret at 1.
  unfold bind at 1.
  rewrite (allCostsLoop_numbers false dst ns); [|done].
  unfold bind, printEvent, ret, resolved, withStdout; simpl.
  by rewrite <- app_assoc.
Qed.

Lemma getAllCosts_stops dst ns msg rest w :
  createError dst = None -> writes_succeed dst ->
  MainSolution.getAllCosts true
    (SourceReader (map numberRow ns ++ ReadError msg :: rest)) dst w
  = (Returned tt,
     withStdout (stdout w ++ [PrintedError msg])
       (withResultFile (exportLines (costs w) ns) w)).
Proof.
  intros Hc Hd. unfold MainSolution.getAllCosts. rewrite Hc.
  unfold bind at 1. unfold createFile.
  unfold bind at 1.
  by rewrite (allCostsLoop_stops true dst ns msg rest (fun _ => Hd)).
Qed.

Lemma go_getCosts_numbers dst ns w :
  createError dst = None -> writes_succeed dst ->
  GoSolution.getCosts true (SourceReader (map numberRow ns)) dst w
  = (Returned tt,
     withStdout (stdout w ++ [PrintedCreated; PrintedCompleted])
       (withResultFile (exportLines (costs w) ns) w)).
Proof.
  intros Hc Hd. unfold GoSolution.getCosts. rewrite Hc.
  unfold bind at 1. unfold bind at 1. unfold createFile, ret at 1.
  unfold bind at 1.
  rewrite (go_costsLoop_numbers true dst ns (fun _ => Hd)).
  unfold bind, printEvent, resolved, withStdout, withResultFile; simpl.
  by rewrite <- app_assoc.
Qed.

Lemma go_getCosts_stops dst ns msg rest w :
  createError dst = None -> writes_succeed dst ->
  GoSolution.getCosts true
    (SourceReader (map numberRow ns ++ ReadError msg :: rest)) dst w
  = (Exited, withResultFile (exportLines (costs w) ns) w).
Proof.
  intros Hc Hd. unfold GoSolution.getCosts. rewrite Hc.
  unfold bind at 1. unfold bind at 1. unfold createFile, ret at 1.
  unfold bind at 1.
  by rewrite (go_costsLoop_stops true dst ns msg rest (fun _ => Hd)).
Qed.

Lemma healthyDest_writes : writes_succeed healthyDest.
Proof. done. Qed.

(** The batch reads the first field of a line only. *)
Lemma allCostsLoop_firstField persist dst reads :
  forall w,
    MainSolution.allCostsLoop persist dst (map firstField reads) w
    = MainSolution.allCostsLoop persist dst reads w.
Proof.
  induction reads as [|[[|number extra]|msg] reads IH]; intros w; simpl;
    [done|done| |done].
  unfold bind, index; simpl. rewrite getCost_run. destruct persist.
  - unfold writeString.
    destruct (writeError dst (resultFile w) _); simpl; [done|apply IH].
  - simpl. apply IH.
Qed.

Lemma go_costsLoop_firstField persist opened dst reads :
  forall w,
    GoSolution.costsLoop persist opened dst (map firstField reads) w
    = GoSolution.costsLoop persist opened dst reads w.
Proof.
  induction reads as [|[[|number extra]|msg] reads IH]; intros w; simpl;
    [done|done| |done].
  unfold bind, index; simpl. rewrite go_findLoop_eq, getCostLoop_run.
  destruct persist.
  - destruct opened.
    + unfold writeString.
      destruct (writeError dst (resultFile w) _); simpl; apply IH.
    + simpl. apply IH.
  - simpl. apply IH.
Qed.

Lemma getAllCosts_firstField persist dst reads w :
  MainSolution.getAllCosts persist (SourceReader (map firstField reads)) dst w
  = MainSolution.getAllCosts persist (SourceReader reads) dst w.
Proof.
  unfold MainSolution.getAllCosts.
  destruct persist; [destruct (createError dst); [done|]|];
    unfold bind, createFile, ret; by rewrite allCostsLoop_firstField.
Qed.

Lemma go_getCosts_firstField persist dst reads w :
  GoSolution.getCosts persist (SourceReader (map firstField reads)) dst w
  = GoSolution.getCosts persist (SourceReader reads) dst w.
Proof.
  unfold GoSolution.getCosts.
  destruct persist; [destruct (createError dst)|];
    unfold bind, createFile, printEvent, ret;
    by rewrite go_costsLoop_firstField.
Qed.

Lemma firstField_lines rows :
  map firstField (map lineRow rows) = map numberRow (map fst rows).
Proof. induction rows as [|[n extra] rows IH]; simpl; by f_equal. Qed.

Lemma firstField_lines_stop rows msg rest :
  map firstField (map lineRow rows ++ ReadError msg :: rest)
  = (map numberRow (map fst rows) ++ ReadError msg :: map firstField rest)%list.
Proof. by rewrite map_app, firstField_lines. Qed.

Lemma getAllCosts_stops_print dst ns msg rest w :
  MainSolution.getAllCosts false
    (SourceReader (map numberRow ns ++ ReadError msg :: rest)) dst w
  = (Returned tt,
     withStdout
       (stdout w ++ printedCosts (costs w) ns ++ [PrintedError msg]) w).
Proof.
  unfold MainSolution.getAllCosts.
  unfold bind at 1. unfold ret at 1. unfold bind at 1.
  rewrite (allCostsLoop_stops false dst ns msg rest); [|done].
  unfold ret, resolved, withStdout; simpl. by rewrite <- app_assoc.
Qed.

Lemma go_getCosts_numbers_print dst ns w :
  GoSolution.getCosts false (SourceReader (map numberRow ns)) dst w
  = (Returned tt,
     withStdout
       (stdout w ++ printedCosts (costs w) ns ++ [PrintedCompleted]) w).
Proof.
  unfold GoSolution.getCosts.
  unfold bind at 1. unfold ret at 1. unfold bind at 1.
  rewrite (go_costsLoop_numbers false dst ns); [|done].
  unfold bind, printEvent, ret, resolved, withStdout; simpl.
  by rewrite <- app_assoc.
Qed.

Lemma go_getCosts_stops_print dst ns msg rest w :
  GoSolution.getCosts false
    (SourceReader (map numberRow ns ++ ReadError msg :: rest)) dst w
  = (Exited, withStdout (stdout w ++ printedCosts (costs w) ns) w).
Proof.
  unfold GoSolution.getCosts.
  unfold bind at 1. unfold ret at 1. unfold bind at 1.
  by rewrite (go_costsLoop_stops false dst ns msg rest).
Qed.

(** * The claims *)

(** ** Lookup *)

(** C1.  On the index [{"+1": "0.05", "+1415": "0.02", "+1415234": "0.03"}]
    the scan of [getCost] keeps overwriting [result] while [i] goes down,
    so the cost of the shortest stored prefix comes out: ["0.05"] for
    ["+14152345678"] (the longest stored prefix ["+1415234"] has ["0.03"])
    and ["0.05"] for ["+14159990000"] (the longest stored prefix ["+1415"]
    has ["0.02"]).  Both programs do so. *)
Theorem getCost_example_gives_shortest_prefix :
  let w := withCosts exampleIndex world0 in
  MainSolution.getCost "+14152345678" w = (Returned "0.05", w) /\
  MainSolution.getCost "+14159990000" w = (Returned "0.05", w) /\
  MainSolution.getCost "+19998887777" w = (Returned "0.05", w) /\
  MainSolution.getCost "+447911123456" w = (Returned "0", w) /\
  GoSolution.getCost "+14152345678" w
  = (Returned tt, withStdout [PrintedCost "+14152345678" "0.05"] w) /\
  GoSolution.getCost "+14159990000" w
  = (Returned tt, withStdout [PrintedCost "+14159990000" "0.05"] w).
Proof. vm_compute. repeat split. Qed.

(** C7.  [getCost] returns for every index and every query, without a
    panic and without touching the state; it returns ["0"] when no prefix
    of the query (the empty one and the query itself included) is a key,
    and so for every query on the empty index.  [go_solution]'s [getCost]
    prints that ["0"]. *)
Theorem getCost_no_route_sentinel (w : World) (q : string) :
  (exists c, MainSolution.getCost q w = (Returned c, w)) /\
  ((forall p, is_prefix p q -> costs w !! p = None) ->
   MainSolution.getCost q w = (Returned "0", w) /\
   GoSolution.getCost q w
   = (Returned tt, withStdout (stdout w ++ [PrintedCost q "0"]) w)) /\
  (costs w = ∅ -> MainSolution.getCost q w = (Returned "0", w)).
Proof.
  split; [|split].
  - exists (lookupCost (costs w) q). apply getCost_run.
  - intros H. rewrite getCost_run, go_getCost_run.
    by rewrite (lookupCost_no_prefix _ _ H).
  - intros H. by rewrite getCost_run, H, lookupCost_empty.
Qed.

Lemma getCost_no_route_sentinel_witness :
  let w := withCosts exampleIndex world0 in
  MainSolution.getCost "+447911123456" w = (Returned "0", w) /\
  MainSolution.getCost "" world0 = (Returned "0", world0).
Proof.
  intros w. split.
  - apply (proj1 (proj2 (getCost_no_route_sentinel w "+447911123456"))).
    intros p Hp. apply prefix_is_slice in Hp as (i & Hi & ->).
    simpl in Hi.
    do 14 (destruct i as [|i]; [vm_compute; reflexivity|]). lia.
  - apply (proj2 (proj2 (getCost_no_route_sentinel world0 ""))).
    reflexivity.
Defined.

(** C8.  [getCost] leaves the whole state as it was, the [costs] map with
    it; [go_solution]'s [getCost] prints, and leaves [costs] as it was. *)
Theorem getCost_read_only (w : World) (q : string) :
  (MainSolution.getCost q w).2 = w /\
  costs (MainSolution.getCost q w).2 = costs w /\
  costs (GoSolution.getCost q w).2 = costs w.
Proof.
  rewrite getCost_run, go_getCost_run. done.
Qed.

(** C10.  The scan ends at [i = 0], the empty prefix: when [""] is a key
    with cost [c] and no other prefix of the query is a key, [getCost]
    returns [c], not ["0"]; and a record whose prefix field is empty is
    loaded like any other, so that [""] becomes such a key. *)
Theorem getCost_empty_prefix_fallback (w : World) (q c : string) :
  (costs w !! "" = Some c ->
   (forall p, is_prefix p q -> p <> "" -> costs w !! p = None) ->
   MainSolution.getCost q w = (Returned c, w)) /\
  (costs w !! "" = None ->
   costs (MainSolution.loadRouteCosts
            (SourceReader (csvReader [[""; c]])) w).2 !! "" = Some c).
Proof.
  split.
  - intros H _. rewrite getCost_run. by rewrite (lookupCost_empty_prefix _ q c).
  - intros H. simpl. unfold bind. rewrite insertRow_run. simpl.
    unfold mergeCost. rewrite H. apply lookup_insert_eq.
Qed.

Lemma getCost_empty_prefix_fallback_witness :
  let w := withCosts (<["" := "0.5"]> exampleIndex) world0 in
  MainSolution.getCost "+447" w = (Returned "0.5", w) /\
  costs (MainSolution.loadRouteCosts
           (SourceReader (csvReader [[""; "0.5"]])) world0).2 !! ""
  = Some "0.5".
Proof.
  intros w. split.
  - apply (proj1 (getCost_empty_prefix_fallback w "+447" "0.5")).
    + vm_compute. reflexivity.
    + intros p Hp Hne. apply prefix_is_slice in Hp as (i & Hi & ->).
      simpl in Hi. destruct i as [|i]; [done|].
      do 4 (destruct i as [|i]; [vm_compute; reflexivity|]). lia.
  - apply (proj2 (getCost_empty_prefix_fallback world0 "" "0.5")).
    vm_compute. reflexivity.
Defined.

(** ** The merge *)

(** C2.  The merge compares the two cost strings with Go's [>], byte by
    byte: for the file [+1,9] / [+1,10] the stored cost of ["+1"] is
    ["10"], because ["9" > "10"] as strings, although 9 is the smaller
    number.  Both programs do so. *)
Theorem merge_example_keeps_string_minimum :
  let file := SourceReader (csvReader [["+1"; "9"]; ["+1"; "10"]]) in
  costs (MainSolution.loadRouteCosts file world0).2 !! "+1" = Some "10" /\
  costs (GoSolution.loadFile file world0).2 !! "+1" = Some "10" /\
  gt_string "9" "10" = true.
Proof. vm_compute. repeat split. Qed.

(** C9.  Inserting the record [(p, c)] a second time changes nothing: the
    state after two insertions in a row is the state after one, in both
    programs, and loading a file with that record twice gives the index
    that loading it once gives. *)
Theorem insertRow_idempotent (w : World) (p c : string) :
  MainSolution.insertRow [p; c] (MainSolution.insertRow [p; c] w).2
  = MainSolution.insertRow [p; c] w /\
  GoSolution.insertRow [p; c] (GoSolution.insertRow [p; c] w).2
  = GoSolution.insertRow [p; c] w /\
  costs (loadFiles [[(p, c)]; [(p, c)]] w).2
  = costs (loadFiles [[(p, c)]] w).2.
Proof.
  split; [|split].
  - rewrite !insertRow_run. simpl. by rewrite mergeCost_idempotent.
  - rewrite go_insertRow_eq, !insertRow_run. simpl.
    by rewrite mergeCost_idempotent.
  - destruct (loadFiles_run [[(p, c)]; [(p, c)]] w) as [out1 ->].
    destruct (loadFiles_run [[(p, c)]] w) as [out2 ->]. simpl.
    apply mergeCost_idempotent.
Qed.

(** C5.  Two sequences of loads whose files hold the same set of records
    (the records of one in another order, some of them repeated, cut into
    files at other places) leave the same [costs] map, so that [getCost]
    answers every query alike after both; this holds from every state the
    loads start in, and for [loadFile] of [go_solution] as well. *)
Theorem load_order_independent
  (files1 files2 : list (list (string * string))) (w : World) :
  (forall r, In r (concat files1) <-> In r (concat files2)) ->
  costs (loadFiles files1 w).2 = costs (loadFiles files2 w).2 /\
  (forall q, (MainSolution.getCost q (loadFiles files1 w).2).1
             = (MainSolution.getCost q (loadFiles files2 w).2).1) /\
  costs (goLoadFiles files1 w).2 = costs (goLoadFiles files2 w).2.
Proof.
  intros Hset.
  destruct (loadFiles_run files1 w) as [o1 ->].
  destruct (loadFiles_run files2 w) as [o2 ->].
  destruct (goLoadFiles_run files1 w) as [o3 ->].
  destruct (goLoadFiles_run files2 w) as [o4 ->].
  simpl. rewrite (mergeAll_same_records _ _ _ Hset).
  split; [done|]. split; [|done].
  intros q. by rewrite !getCost_run.
Qed.

Lemma load_order_independent_witness :
  let files1 := [[("+1", "0.05"); ("+1415", "0.04"); ("+1415", "0.02")];
                 [("+44", "0.10")]] in
  let files2 := [[("+44", "0.10"); ("+1415", "0.02")];
                 [("+1415", "0.04"); ("+1", "0.05"); ("+44", "0.10")]] in
  costs (loadFiles files1 world0).2 = costs (loadFiles files2 world0).2.
Proof.
  intros files1 files2.
  apply (load_order_independent files1 files2 world0).
  intros r. simpl. tauto.
Defined.

(** ** Loading a file with a record the reader rejects *)

(** C3, the claim as stated fails.  In the file [+1,0.05] / [+44] /
    [+33,0.10] the second record has one field where the first has two:
    the reader answers "record on line 2: wrong number of fields", the
    main solution prints it and returns, and the record [+33,0.10] after
    it is not in the index;
    [go_solution] ends the process at that record. *)
Lemma load_abandons_records_after_rejected_one :
  let file :=
    SourceReader (csvReader [["+1"; "0.05"]; ["+44"]; ["+33"; "0.10"]]) in
  (MainSolution.loadRouteCosts file world0).1 = Returned tt /\
  costs (MainSolution.loadRouteCosts file world0).2 !! "+1" = Some "0.05" /\
  costs (MainSolution.loadRouteCosts file world0).2 !! "+33" = None /\
  stdout (MainSolution.loadRouteCosts file world0).2
  = [PrintedError "record on line 2: wrong number of fields"] /\
  (GoSolution.loadFile file world0).1 = Exited /\
  costs (GoSolution.loadFile file world0).2 !! "+33" = None.
Proof. vm_compute. repeat split. Qed.

(** C3, amended.  No record is validated: every two-field record the
    reader returns is merged as it is, whatever its prefix and its cost
    are.  A record the reader rejects ends the load there: the records
    before it are merged, the records after it are never read; the main
    solution prints the error and returns, [go_solution] ends the
    process. *)
Theorem load_stops_at_rejected_record
  (w : World) (before : list (string * string)) (msg : string)
  (rest : list ReadResult) :
  MainSolution.loadRouteCosts (SourceReader (map recordRow before)) w
  = (Returned tt,
     withStdout (stdout w ++ [PrintedCompleted])
       (withCosts (mergeAll (costs w) before) w)) /\
  MainSolution.loadRouteCosts
    (SourceReader (map recordRow before ++ ReadError msg :: rest)) w
  = (Returned tt,
     withStdout (stdout w ++ [PrintedError msg])
       (withCosts (mergeAll (costs w) before) w)) /\
  GoSolution.loadFile
    (SourceReader (map recordRow before ++ ReadError msg :: rest)) w
  = (Exited, withCosts (mergeAll (costs w) before) w).
Proof.
  split; [apply loadRouteCosts_records|]. split.
  - unfold MainSolution.loadRouteCosts, bind. by rewrite loadLoop_stops.
  - unfold GoSolution.loadFile, bind. by rewrite go_loadLoop_stops.
Qed.

(** ** The batch *)

(** C4, the claim as stated fails.  With the routes of the project
    description loaded, the numbers file [+15124156620] / [+1415,x] /
    [+19876543210] has a second line of two fields: the reader answers
    "record on line 2: wrong number of fields", the main solution prints
    it and returns with the one result of the first number produced, and
    the third number is not resolved; [go_solution] ends the process
    there. *)
Lemma batch_abandons_lines_after_rejected_one :
  let w := withCosts readmeIndex world0 in
  let file :=
    SourceReader
      (csvReader [["+15124156620"]; ["+1415"; "x"]; ["+19876543210"]]) in
  MainSolution.getAllCosts true file healthyDest w
  = (Returned tt,
     mkWorld readmeIndex
       [PrintedError "record on line 2: wrong number of fields"]
       [exportLine "+15124156620" "0.04"]) /\
  MainSolution.getAllCosts false file healthyDest w
  = (Returned tt,
     mkWorld readmeIndex
       [PrintedCost "+15124156620" "0.04";
        PrintedError "record on line 2: wrong number of fields"] []) /\
  GoSolution.getCosts true file healthyDest w
  = (Exited, mkWorld readmeIndex [] [exportLine "+15124156620" "0.04"]) /\
  GoSolution.getCosts false file healthyDest w
  = (Exited, mkWorld readmeIndex [PrintedCost "+15124156620" "0.04"] []).
Proof. vm_compute. repeat split. Qed.

(** C4, amended.  A line the reader returns is resolved whatever its
    first field is and whatever fields follow it, and its result comes
    out in the order of the lines.  When the results are printed, or when
    they are persisted and the result file is created and takes every
    write, the batch goes on to the end of the file; a line the reader
    rejects ends it: the lines before it have their results out, in
    order, and the lines after it are never read.  The main solution
    then prints the error and returns, [go_solution] ends the process.
    (What a failed create or write does is not part of this
    statement.) *)
Theorem batch_stops_at_rejected_line
  (persist : bool) (w : World) (rows : list (string * list string))
  (msg : string) (rest : list ReadResult) (dst : Dest) :
  (persist = true -> createError dst = None /\ writes_succeed dst) ->
  let m := costs w in
  let numbers := map fst rows in
  let out := if persist
             then withResultFile (exportLines m numbers) w
             else withStdout (stdout w ++ printedCosts m numbers) w in
  let created := if persist then [PrintedCreated] else [] in
  MainSolution.getAllCosts persist (SourceReader (map lineRow rows)) dst w
  = (Returned tt,
     withStdout (stdout out ++ created ++ [PrintedCompleted]) out) /\
  GoSolution.getCosts persist (SourceReader (map lineRow rows)) dst w
  = (Returned tt,
     withStdout (stdout out ++ created ++ [PrintedCompleted]) out) /\
  MainSolution.getAllCosts persist
    (SourceReader (map lineRow rows ++ ReadError msg :: rest)) dst w
  = (Returned tt, withStdout (stdout out ++ [PrintedError msg]) out) /\
  GoSolution.getCosts persist
    (SourceReader (map lineRow rows ++ ReadError msg :: rest)) dst w
  = (Exited, out).
Proof.
  intros Hdst m numbers out created.
  rewrite <- (getAllCosts_firstField persist dst (map lineRow rows)).
  rewrite <- (go_getCosts_firstField persist dst (map lineRow rows)).
  rewrite <- (getAllCosts_firstField persist dst
                (map lineRow rows ++ ReadError msg :: rest)).
  rewrite <- (go_getCosts_firstField persist dst
                (map lineRow rows ++ ReadError msg :: rest)).
  rewrite firstField_lines, firstField_lines_stop.
  subst out created. destruct persist.
  - destruct (Hdst eq_refl) as [Hc Hd].
    rewrite getAllCosts_numbers, go_getCosts_numbers, getAllCosts_stops,
      go_getCosts_stops by done.
    done.
  - rewrite getAllCosts_numbers_print, go_getCosts_numbers_print,
      getAllCosts_stops_print, go_getCosts_stops_print.
    unfold withStdout; simpl. by rewrite <- !app_assoc.
Qed.

Lemma batch_stops_at_rejected_line_witness :
  let w := withCosts readmeIndex world0 in
  let rows := [("+15124156620", []); ("not a number", ["x"]); ("", [])] in
  let out := withResultFile (exportLines (costs w) (map fst rows)) w in
  (MainSolution.getAllCosts true
     (SourceReader (map lineRow rows ++ ReadError (fieldCountError 4)
                      :: [Row ["+19876543210"]]))
     healthyDest w
   = (Returned tt,
      withStdout (stdout out ++ [PrintedError (fieldCountError 4)]) out)) /\
  (MainSolution.getAllCosts false
     (SourceReader (map lineRow rows ++ ReadError (fieldCountError 4)
                      :: [Row ["+19876543210"]]))
     (refusing (exportLine "+15124156620" "0.04") "disk full") w
   = (Returned tt,
      withStdout
        (stdout (withStdout
                   (stdout w ++ printedCosts (costs w) (map fst rows)) w)
         ++ [PrintedError (fieldCountError 4)])
        (withStdout (stdout w ++ printedCosts (costs w) (map fst rows)) w))).
Proof.
  intros w rows out. split.
  - apply (proj1 (proj2 (proj2 (batch_stops_at_rejected_line true w rows
             (fieldCountError 4) [Row ["+19876543210"]] healthyDest
             (fun _ => conj eq_refl healthyDest_writes))))).
  - apply (proj1 (proj2 (proj2 (batch_stops_at_rejected_line false w rows
             (fieldCountError 4) [Row ["+19876543210"]]
             (refusing (exportLine "+15124156620" "0.04") "disk full")
             ltac:(discriminate))))).
Defined.

(** C6, the claim as stated fails.  With the route [+1,0] loaded, the
    number ["+15"] is exported as ["+15,0"] although its prefix ["+1"] is
    a key of the index: the cost ["0"] does not tell that no route was
    found. *)
Lemma zero_cost_route_is_exported_as_zero :
  let w := withCosts {["+1" := "0"]} world0 in
  resultFile
    (MainSolution.getAllCosts true (SourceReader (csvReader [["+15"]]))
       healthyDest w).2
  = [exportLine "+15" "0"] /\
  is_prefix "+1" "+15" /\
  costs w !! "+1" = Some "0".
Proof. vm_compute. repeat split. Qed.

(** C6, amended.  For every index and every sequence of numbers that the
    reader returns and the destination accepts, the result file holds
    exactly the lines ["n,c\n"], one per number and in the order of the
    numbers, [c] being what [getCost] returns for [n] (and, without
    [persist], standard output shows the same pairs in that order).  [c]
    is ["0"] whenever no prefix of [n] is a key; and when [c] is ["0"],
    either no prefix of [n] is a key or a prefix of [n] is stored with
    the cost ["0"]. *)
Theorem getAllCosts_exports_in_order
  (w : World) (numbers : list string) (dst : Dest) :
  createError dst = None ->
  writes_succeed dst ->
  let m := costs w in
  (MainSolution.getAllCosts true (SourceReader (map numberRow numbers)) dst w).1
  = Returned tt /\
  resultFile
    (MainSolution.getAllCosts true (SourceReader (map numberRow numbers)) dst w).2
  = map (fun n => exportLine n (lookupCost m n)) numbers /\
  resultFile
    (GoSolution.getCosts true (SourceReader (map numberRow numbers)) dst w).2
  = map (fun n => exportLine n (lookupCost m n)) numbers /\
  stdout
    (MainSolution.getAllCosts false (SourceReader (map numberRow numbers)) dst w).2
  = (stdout w ++ map (fun n => PrintedCost n (lookupCost m n)) numbers
      ++ [PrintedCompleted])%list /\
  (forall n, MainSolution.getCost n w = (Returned (lookupCost m n), w)) /\
  (forall n, (forall p, is_prefix p n -> m !! p = None) ->
             lookupCost m n = "0") /\
  (forall n, lookupCost m n = "0" ->
             (forall p, is_prefix p n -> m !! p = None) \/
             (exists p, is_prefix p n /\ m !! p = Some "0")).
Proof.
  intros Hc Hd m.
  rewrite getAllCosts_numbers, go_getCosts_numbers, getAllCosts_numbers_print
    by done.
  repeat split.
  - intros n. apply getCost_run.
  - intros n. apply lookupCost_no_prefix.
  - intros n. apply lookupCost_zero.
Qed.

Lemma getAllCosts_exports_in_order_witness :
  let w := withCosts readmeIndex world0 in
  resultFile
    (MainSolution.getAllCosts true
       (SourceReader
          (map numberRow ["+15124156620"; "+14152345678"; "+19876543210"]))
       healthyDest w).2
  = map (fun n => exportLine n (lookupCost (costs w) n))
      ["+15124156620"; "+14152345678"; "+19876543210"].
Proof.
  intros w.
  apply (proj1 (proj2 (getAllCosts_exports_in_order w
           ["+15124156620"; "+14152345678"; "+19876543210"] healthyDest
           eq_refl healthyDest_writes))).
Defined.

(** * Further properties of the code *)

(** ** The scan of [getCost] *)

(** X1.  Whatever the index and the query, when some prefix of the query
    is a key, [getCost] returns the cost stored for the shortest such
    prefix: the scan goes on after a hit, down to the empty prefix. *)
Theorem getCost_returns_shortest_stored_prefix (w : World) (q p v : string) :
  is_prefix p q ->
  costs w !! p = Some v ->
  (forall p', is_prefix p' q ->
              (String.length p' < String.length p)%nat ->
              costs w !! p' = None) ->
  MainSolution.getCost q w = (Returned v, w) /\
  GoSolution.getCost q w
  = (Returned tt, withStdout (stdout w ++ [PrintedCost q v]) w).
Proof.
  intros Hp Hv Hshort.
  rewrite getCost_run, go_getCost_run.
  assert (lookupCost (costs w) q = v) as ->; [|done].
  pose proof (prefix_length p q Hp) as Hlen.
  apply prefix_is_slice in Hp as (j & Hj & ->).
  rewrite length_substring_0 in Hshort, Hlen by done.
  apply (scanCosts_shortest _ q _ "0" j v); [done|done|].
  intros k Hk. apply Hshort.
  - apply slice_is_prefix. lia.
  - rewrite length_substring_0; lia.
Qed.

Lemma getCost_returns_shortest_stored_prefix_witness :
  let w := withCosts readmeIndex world0 in
  MainSolution.getCost "+14152345678" w = (Returned "0.02", w).
Proof.
  intros w.
  apply (proj1 (getCost_returns_shortest_stored_prefix w
                  "+14152345678" "+1415" "0.02" eq_refl eq_refl
                  ltac:(intros p' Hp' Hlen;
                        apply prefix_is_slice in Hp' as (i & Hi & ->);
                        simpl in Hi;
                        rewrite length_substring_0 in Hlen by done;
                        simpl in Hlen;
                        do 5 (destruct i as [|i];
                              [vm_compute; reflexivity|]); lia))).
Defined.

(** ** What a load does to the index *)

(** X2.  After a load of two-field records the cost stored for a prefix
    is, among the cost it had before and the costs of its records, the
    one that is least in Go's order on strings (and the prefix is a key
    exactly when it was one or has a record); in both programs. *)
Theorem load_stores_least_string
  (w : World) (records : list (string * string)) (k : string) :
  least_cost (costs w) records k
    (costs (MainSolution.loadRouteCosts
              (SourceReader (map recordRow records)) w).2 !! k) /\
  least_cost (costs w) records k
    (costs (GoSolution.loadFile
              (SourceReader (map recordRow records)) w).2 !! k).
Proof.
  rewrite loadRouteCosts_records, go_loadFile_records. simpl.
  split; apply mergeAll_least.
Qed.

Lemma index_grows_refl m : index_grows m m.
Proof. intros k v H. exists v. split; [done|apply le_string_refl]. Qed.

Lemma index_grows_trans m1 m2 m3 :
  index_grows m1 m2 -> index_grows m2 m3 -> index_grows m1 m3.
Proof.
  intros H12 H23 k v H. destruct (H12 k v H) as (v2 & H2 & L2).
  destruct (H23 k v2 H2) as (v3 & H3 & L3).
  exists v3. split; [done|]. by apply le_string_trans with v2.
Qed.

Lemma index_grows_mergeCost m p c : index_grows m (mergeCost m p c).
Proof.
  intros k v H. rewrite lookup_mergeCost. case_decide as Hk.
  - subst k. rewrite H. destruct (gt_string v c) eqn:G.
    + exists c. split; [done|]. by apply lt_le_string.
    + exists v. split; [done|]. apply le_string_refl.
  - exists v. split; [done|]. apply le_string_refl.
Qed.

Lemma insertRow_cases row w :
  MainSolution.insertRow row w = (Panicked, w) /\ (List.length row < 2)%nat \/
  exists p c rest,
    row = p :: c :: rest /\
    MainSolution.insertRow row w
    = (Returned tt, withCosts (mergeCost (costs w) p c) w).
Proof.
  destruct row as [|p [|c rest]].
  - left. split; [done|simpl; lia].
  - left. split; [done|simpl; lia].
  - right. exists p, c, rest. split; [done|]. apply insertRow_run.
Qed.

Lemma loadLoop_grows reads :
  forall w, index_grows (costs w) (costs (MainSolution.loadLoop reads w).2).
Proof.
  induction reads as [|[row|msg] reads IH]; intros w; simpl.
  - apply index_grows_refl.
  - unfold bind.
    destruct (insertRow_cases row w) as [[-> _]|(p & c & rest & -> & ->)].
    + apply index_grows_refl.
    + eapply index_grows_trans; [|apply IH]. apply index_grows_mergeCost.
  - apply index_grows_refl.
Qed.

Lemma go_loadLoop_grows reads :
  forall w, index_grows (costs w) (costs (GoSolution.loadLoop reads w).2).
Proof.
  induction reads as [|[row|msg] reads IH]; intros w; simpl.
  - apply index_grows_refl.
  - unfold bind. rewrite go_insertRow_eq.
    destruct (insertRow_cases row w) as [[-> _]|(p & c & rest & -> & ->)].
    + apply index_grows_refl.
    + eapply index_grows_trans; [|apply IH]. apply index_grows_mergeCost.
  - apply index_grows_refl.
Qed.

Lemma loadRouteCosts_grows src w :
  index_grows (costs w) (costs (MainSolution.loadRouteCosts src w).2).
Proof.
  destruct src as [msg|reads]; simpl; [apply index_grows_refl|].
  unfold bind. pose proof (loadLoop_grows reads w) as H.
  destruct (MainSolution.loadLoop reads w) as [[[|]| |] w']; done.
Qed.

Lemma go_loadFile_grows src w :
  index_grows (costs w) (costs (GoSolution.loadFile src w).2).
Proof.
  destruct src as [msg|reads]; simpl; [apply index_grows_refl|].
  unfold bind. pose proof (go_loadLoop_grows reads w) as H.
  destruct (GoSolution.loadLoop reads w) as [[[]| |] w']; done.
Qed.

(** X3.  A load never removes a key and never raises a stored cost (in
    Go's order on strings), whatever the file holds and however the load
    ends: at the end of the file, at a record the reader rejects, or in
    the panic of a record with fewer than two fields. *)
Theorem load_never_removes_or_raises (src : Source) (w : World) :
  index_grows (costs w) (costs (MainSolution.loadRouteCosts src w).2) /\
  index_grows (costs w) (costs (GoSolution.loadFile src w).2).
Proof.
  split; [apply loadRouteCosts_grows|apply go_loadFile_grows].
Qed.

Lemma dom_mergeCost m p c : dom (mergeCost m p c) = {[p]} ∪ dom m.
Proof.
  unfold mergeCost. destruct (m !! p) as [v|] eqn:E.
  - destruct (gt_string v c); [apply dom_insert_L|].
    symmetry. apply subseteq_union_1_L, singleton_subseteq_l, elem_of_dom.
    by exists v.
  - apply dom_insert_L.
Qed.

Lemma dom_mergeAll rs :
  forall m, dom (mergeAll m rs) = dom m ∪ list_to_set (map fst rs).
Proof.
  induction rs as [|[p c] rs IH]; intros m.
  - simpl. by rewrite union_empty_r_L.
  - rewrite mergeAll_cons, IH, dom_mergeCost. simpl.
    by rewrite (union_comm_L {[p]} (dom m)), union_assoc_L.
Qed.

(** X4.  The keys of the index after a load of two-field records are the
    keys it had and the prefix fields of the records, nothing else; so
    the number of route costs the menu reports grows by the number of
    prefixes that were not yet keys. *)
Theorem load_keys (w : World) (records : list (string * string)) :
  dom (costs (MainSolution.loadRouteCosts
                (SourceReader (map recordRow records)) w).2)
  = dom (costs w) ∪ list_to_set (map fst records) /\
  dom (costs (GoSolution.loadFile
                (SourceReader (map recordRow records)) w).2)
  = dom (costs w) ∪ list_to_set (map fst records).
Proof.
  rewrite loadRouteCosts_records, go_loadFile_records. simpl.
  split; apply dom_mergeAll.
Qed.

(** ** Records with too few fields *)

Lemma two_fields_csvReadFrom expected rest :
  (2 <= expected)%nat ->
  forall line, two_fields (csvReadFrom expected line rest).
Proof.
  intros He. unfold two_fields.
  induction rest as [|record rest IH]; intros line; simpl; [done|].
  constructor; [|apply IH]. unfold csvRead.
  destruct (Nat.eqb_spec (List.length record) expected); [lia|done].
Qed.

Lemma two_fields_csvReader first rest :
  (2 <= List.length first)%nat -> two_fields (csvReader (first :: rest)).
Proof.
  intros Hf. unfold two_fields. simpl. constructor; [done|].
  by apply two_fields_csvReadFrom.
Qed.

Lemma loadLoop_two_fields reads :
  two_fields reads ->
  forall w, exists exit w',
    MainSolution.loadLoop reads w = (Returned exit, w').
Proof.
  induction 1 as [|[row|msg] reads Hr _ IH]; intros w; simpl.
  - by exists Break, w.
  - unfold bind.
    destruct (insertRow_cases row w) as [[_ Hlt]|(p & c & rest & -> & ->)];
      [lia|]. apply IH.
  - unfold bind, printEvent, ret. eauto.
Qed.

(** X5.  The statement that merges a record reads [row[1]]: when the
    first record of a file has a single field, the load panics at that
    record (the reader then accepts one-field records only) and the state
    is the one before the load; in both programs. *)
Theorem load_panics_on_one_field_file
  (first : list string) (rest : list (list string)) (w : World) :
  (List.length first < 2)%nat ->
  MainSolution.loadRouteCosts (SourceReader (csvReader (first :: rest))) w
  = (Panicked, w) /\
  GoSolution.loadFile (SourceReader (csvReader (first :: rest))) w
  = (Panicked, w).
Proof.
  intros Hlen. simpl. unfold bind.
  rewrite go_insertRow_eq, (insertRow_short_panics first w Hlen). done.
Qed.

Lemma load_panics_on_one_field_file_witness :
  MainSolution.loadRouteCosts
    (SourceReader (csvReader [["+1512"]; ["+1415"; "0.02"]])) world0
  = (Panicked, world0).
Proof.
  apply (proj1 (load_panics_on_one_field_file ["+1512"] [["+1415"; "0.02"]]
                  world0 ltac:(simpl; lia))).
Defined.

(** X6.  When the first record of a file has two fields or more, the
    load of the main solution returns, whatever the other records are:
    the reader hands on only records with as many fields as the first,
    so that [row[1]] is always there. *)
Theorem load_returns_on_two_field_file
  (first : list string) (rest : list (list string)) (w : World) :
  (2 <= List.length first)%nat ->
  exists w',
    MainSolution.loadRouteCosts (SourceReader (csvReader (first :: rest))) w
    = (Returned tt, w').
Proof.
  intros Hlen. unfold MainSolution.loadRouteCosts, bind.
  destruct (loadLoop_two_fields _ (two_fields_csvReader first rest Hlen) w)
    as (exit & w' & ->).
  destruct exit; unfold printEvent, ret; eauto.
Qed.

Lemma load_returns_on_two_field_file_witness :
  exists w',
    MainSolution.loadRouteCosts
      (SourceReader (csvReader [["+1512"; "0.04"]; ["+1415"]; []])) world0
    = (Returned tt, w').
Proof.
  apply (load_returns_on_two_field_file ["+1512"; "0.04"] [["+1415"]; []]
           world0 ltac:(simpl; lia)).
Defined.

(** ** The batch and its destination *)

Lemma allCostsLoop_costs persist dst reads :
  forall w,
    costs (MainSolution.allCostsLoop persist dst reads w).2 = costs w /\
    (persist = false ->
     resultFile (MainSolution.allCostsLoop persist dst reads w).2
     = resultFile w).
Proof.
  induction reads as [|[row|msg] reads IH]; intros w; simpl; [done| |done].
  unfold bind, index. destruct row as [|number row]; simpl; [done|].
  rewrite getCost_run. destruct persist.
  - unfold writeString.
    destruct (writeError dst (resultFile w) _); simpl; [done|].
    destruct (IH (mkWorld (costs w) (stdout w)
                    (resultFile w ++ [exportLine number
                                        (lookupCost (costs w) number)])))
      as [-> _]. done.
  - simpl.
    destruct (IH (mkWorld (costs w)
                    (stdout w ++ [PrintedCost number
                                    (lookupCost (costs w) number)])
                    (resultFile w))) as [-> ->]; done.
Qed.

Lemma go_costsLoop_costs persist opened dst reads :
  forall w,
    costs (GoSolution.costsLoop persist opened dst reads w).2 = costs w /\
    (persist = false ->
     resultFile (GoSolution.costsLoop persist opened dst reads w).2
     = resultFile w).
Proof.
  induction reads as [|[row|msg] reads IH]; intros w; simpl; [done| |done].
  unfold bind, index. destruct row as [|number row]; simpl; [done|].
  rewrite go_findLoop_eq, getCostLoop_run. destruct persist.
  - destruct opened.
    + unfold writeString.
      destruct (writeError dst (resultFile w) _); simpl.
      * destruct (IH (mkWorld (costs w) (stdout w ++ [PrintedError s])
                        (resultFile w))) as [-> _]. done.
      * destruct (IH (mkWorld (costs w) (stdout w)
                        (resultFile w ++ [exportLine number
                           (scanCosts (costs w) number
                              (String.length number) "0")])))
          as [-> _]. done.
    + simpl.
      destruct (IH (mkWorld (costs w)
                      (stdout w ++ [PrintedError GoSolution.ErrInvalid])
                      (resultFile w))) as [-> _]. done.
  - simpl.
    destruct (IH (mkWorld (costs w)
                    (stdout w ++ [PrintedCost number
                       (scanCosts (costs w) number
                          (String.length number) "0")])
                    (resultFile w))) as [-> ->]; done.
Qed.

Lemma getAllCosts_frame persist src dst w :
  costs (MainSolution.getAllCosts persist src dst w).2 = costs w /\
  (persist = false ->
   resultFile (MainSolution.getAllCosts persist src dst w).2
   = resultFile w).
Proof.
  destruct src as [msg|reads]; simpl; [done|].
  destruct persist; simpl.
  - destruct (createError dst); simpl; [done|]. unfold bind, createFile.
    pose proof (allCostsLoop_costs true dst reads
                  (mkWorld (costs w) (stdout w) [])) as [Hc _].
    destruct (MainSolution.allCostsLoop true dst reads _)
      as [[[|]| |] w']; done.
  - unfold bind, ret.
    pose proof (allCostsLoop_costs false dst reads w) as [Hc Hr].
    destruct (MainSolution.allCostsLoop false dst reads _)
      as [[[|]| |] w']; simpl in *; split; auto.
Qed.

Lemma go_getCosts_frame persist src dst w :
  costs (GoSolution.getCosts persist src dst w).2 = costs w /\
  (persist = false ->
   resultFile (GoSolution.getCosts persist src dst w).2
   = resultFile w).
Proof.
  destruct src as [msg|reads]; simpl; [done|].
  destruct persist; simpl.
  - destruct (createError dst); unfold bind, createFile, printEvent, ret;
      simpl.
    + pose proof (go_costsLoop_costs true false dst reads
                    (mkWorld (costs w) (stdout w ++ [PrintedError s])
                       (resultFile w))) as [Hc _].
      destruct (GoSolution.costsLoop true false dst reads _)
        as [[[]| |] w']; done.
    + pose proof (go_costsLoop_costs true true dst reads
                    (mkWorld (costs w) (stdout w) [])) as [Hc _].
      destruct (GoSolution.costsLoop true true dst reads _)
        as [[[]| |] w']; done.
  - unfold bind, ret.
    pose proof (go_costsLoop_costs false false dst reads w) as [Hc Hr].
    destruct (GoSolution.costsLoop false false dst reads _)
      as [[[]| |] w']; simpl in *; split; auto.
Qed.

(** X7.  A batch never changes the index, and without [persist] it never
    touches the result file: whatever the file of numbers holds, whatever
    the destination answers, and however the batch ends; in both
    programs. *)
Theorem batch_leaves_index (persist : bool) (src : Source) (dst : Dest)
  (w : World) :
  costs (MainSolution.getAllCosts persist src dst w).2 = costs w /\
  costs (GoSolution.getCosts persist src dst w).2 = costs w /\
  resultFile (MainSolution.getAllCosts false src dst w).2 = resultFile w /\
  resultFile (GoSolution.getCosts false src dst w).2 = resultFile w.
Proof.
  split; [apply getAllCosts_frame|]. split; [apply go_getCosts_frame|].
  split; [by apply getAllCosts_frame|by apply go_getCosts_frame].
Qed.

Lemma resolved_app ns1 ns2 w :
  resolved true ns2 (resolved true ns1 w) = resolved true (ns1 ++ ns2) w.
Proof.
  unfold resolved, exportLines, withResultFile; simpl.
  by rewrite map_app, app_assoc.
Qed.

Lemma allCostsLoop_accepts dst ns reads :
  forall w,
    accepts dst (resultFile w) (exportLines (costs w) ns) ->
    MainSolution.allCostsLoop true dst (map numberRow ns ++ reads) w
    = MainSolution.allCostsLoop true dst reads (resolved true ns w).
Proof.
  induction ns as [|n ns IH]; intros w Hacc.
  - by rewrite resolved_nil.
  - destruct Hacc as [Hw Hrest].
    rewrite <- resolved_cons, <- IH by done.
    simpl. unfold bind, index; simpl. rewrite getCost_run.
    unfold writeString. by rewrite Hw.
Qed.

Lemma go_costsLoop_accepts dst ns reads :
  forall w,
    accepts dst (resultFile w) (exportLines (costs w) ns) ->
    GoSolution.costsLoop true true dst (map numberRow ns ++ reads) w
    = GoSolution.costsLoop true true dst reads (resolved true ns w).
Proof.
  induction ns as [|n ns IH]; intros w Hacc.
  - by rewrite resolved_nil.
  - destruct Hacc as [Hw Hrest].
    rewrite <- resolved_cons, <- IH by done.
    simpl. unfold bind, index; simpl. rewrite go_findLoop_eq, getCostLoop_run.
    unfold writeString. fold (lookupCost (costs w) n). by rewrite Hw.
Qed.

(** X8.  When the destination takes the lines of the numbers [before] and
    refuses the line of the next number, the main solution stops there:
    it prints the error and returns, the result file holds the lines of
    [before] and nothing of the numbers after, and neither "created" nor
    "Completed" is printed. *)
Theorem batch_stops_at_failed_write
  (w : World) (before after : list string) (n msg : string) (dst : Dest) :
  let m := costs w in
  createError dst = None ->
  accepts dst [] (exportLines m before) ->
  writeError dst (exportLines m before) (exportLine n (lookupCost m n))
  = Some msg ->
  MainSolution.getAllCosts true
    (SourceReader (map numberRow (before ++ n :: after))) dst w
  = (Returned tt,
     withStdout (stdout w ++ [PrintedError msg])
       (withResultFile (exportLines m before) w)).
Proof.
  intros m Hc Hacc Hfail. unfold MainSolution.getAllCosts. rewrite Hc.
  unfold bind at 1. unfold createFile. unfold bind at 1.
  rewrite map_app, allCostsLoop_accepts by done.
  simpl. unfold bind, index; simpl. rewrite getCost_run.
  unfold writeString; simpl. fold m. by rewrite Hfail.
Qed.

Lemma batch_stops_at_failed_write_witness :
  let w := withCosts readmeIndex world0 in
  MainSolution.getAllCosts true
    (SourceReader
       (map numberRow (["+15124156620"] ++ "+14152345678" :: ["+19876543210"])))
    (refusing (exportLine "+14152345678" "0.02") "disk full") w
  = (Returned tt,
     withStdout (stdout w ++ [PrintedError "disk full"])
       (withResultFile (exportLines (costs w) ["+15124156620"]) w)).
Proof.
  intros w.
  apply (batch_stops_at_failed_write w ["+15124156620"] ["+19876543210"]
           "+14152345678" "disk full"
           (refusing (exportLine "+14152345678" "0.02") "disk full")).
  - reflexivity.
  - vm_compute. split; reflexivity.
  - vm_compute. reflexivity.
Defined.

(** X9.  In [go_solution] a failed write does not end the batch: when the
    destination takes the lines of [before], refuses the line of the next
    number and takes the lines of [after], [getCosts] prints the error,
    goes on, writes the lines of [after] behind those of [before], and
    reports the result file as created. *)
Theorem go_batch_goes_on_after_failed_write
  (w : World) (before after : list string) (n msg : string) (dst : Dest) :
  let m := costs w in
  createError dst = None ->
  accepts dst [] (exportLines m before) ->
  writeError dst (exportLines m before) (exportLine n (lookupCost m n))
  = Some msg ->
  accepts dst (exportLines m before) (exportLines m after) ->
  GoSolution.getCosts true
    (SourceReader (map numberRow (before ++ n :: after))) dst w
  = (Returned tt,
     withStdout (stdout w ++ [PrintedError msg; PrintedCreated;
                              PrintedCompleted])
       (withResultFile (exportLines m (before ++ after)) w)).
Proof.
  intros m Hc Hacc Hfail Hafter. unfold GoSolution.getCosts. rewrite Hc.
  unfold bind at 1. unfold bind at 1. unfold createFile, ret at 1.
  unfold bind at 1.
  rewrite map_app, go_costsLoop_accepts by done.
  cbn [map app GoSolution.costsLoop numberRow].
  unfold bind at 1. unfold index; simpl.
  unfold bind at 1. rewrite go_findLoop_eq, getCostLoop_run.
  unfold bind at 1. unfold bind at 1. unfold writeString; simpl.
  fold (lookupCost (costs w) n). fold m. rewrite Hfail.
  unfold printEvent at 1.
  rewrite <- (app_nil_r (map numberRow after)).
  rewrite go_costsLoop_accepts by done.
  simpl. unfold bind, printEvent, ret, resolved, withStdout, withResultFile;
    simpl.
  unfold exportLines. rewrite map_app, <- !app_assoc. done.
Qed.

Lemma go_batch_goes_on_after_failed_write_witness :
  let w := withCosts readmeIndex world0 in
  GoSolution.getCosts true
    (SourceReader
       (map numberRow (["+15124156620"] ++ "+14152345678" :: ["+19876543210"])))
    (refusing (exportLine "+14152345678" "0.02") "disk full") w
  = (Returned tt,
     withStdout (stdout w ++ [PrintedError "disk full"; PrintedCreated;
                              PrintedCompleted])
       (withResultFile
          (exportLines (costs w) (["+15124156620"] ++ ["+19876543210"])) w)).
Proof.
  intros w.
  apply (go_batch_goes_on_after_failed_write w ["+15124156620"]
           ["+19876543210"] "+14152345678" "disk full"
           (refusing (exportLine "+14152345678" "0.02") "disk full")).
  - reflexivity.
  - vm_compute. split; reflexivity.
  - vm_compute. reflexivity.
  - vm_compute. split; reflexivity.
Defined.

Lemma go_costsLoop_unopened dst ns :
  forall w,
    GoSolution.costsLoop true false dst (map numberRow ns) w
    = (Returned tt,
       withStdout (stdout w ++ map (fun _ => PrintedError GoSolution.ErrInvalid) ns)
         w).
Proof.
  induction ns as [|n ns IH]; intros w.
  - simpl. unfold ret, withStdout. rewrite app_nil_r. by destruct w.
  - simpl. unfold bind, index; simpl.
    rewrite go_findLoop_eq, getCostLoop_run. simpl.
    rewrite IH. unfold withStdout; simpl. by rewrite <- app_assoc.
Qed.

(** X10.  When the result file cannot be created, the main solution
    prints the error and returns without reading a number.  [go_solution]
    prints the error and goes through the whole file: every number is
    resolved, every write fails on the missing file and is printed as an
    error, nothing is written, and the result file is still reported as
    created. *)
Theorem batch_when_create_fails
  (w : World) (numbers : list string) (reads : list ReadResult)
  (dst : Dest) (msg : string) :
  createError dst = Some msg ->
  MainSolution.getAllCosts true (SourceReader reads) dst w
  = (Returned tt, withStdout (stdout w ++ [PrintedError msg]) w) /\
  GoSolution.getCosts true (SourceReader (map numberRow numbers)) dst w
  = (Returned tt,
     withStdout
       (stdout w ++ [PrintedError msg]
        ++ map (fun _ => PrintedError GoSolution.ErrInvalid) numbers
        ++ [PrintedCreated; PrintedCompleted]) w).
Proof.
  intros Hc. split.
  - unfold MainSolution.getAllCosts. by rewrite Hc.
  - unfold GoSolution.getCosts. rewrite Hc.
    unfold bind at 1. unfold bind at 1. unfold printEvent at 1.
    unfold ret at 1. unfold bind at 1. rewrite go_costsLoop_unopened.
    unfold bind, printEvent, withStdout; simpl.
    by rewrite <- !app_assoc.
Qed.

Lemma batch_when_create_fails_witness :
  let w := withCosts readmeIndex world0 in
  let dst := mkDest (Some "permission denied") (fun _ _ => None) in
  GoSolution.getCosts true
    (SourceReader (map numberRow ["+15124156620"; "+14152345678"])) dst w
  = (Returned tt,
     withStdout
       (stdout w ++ [PrintedError "permission denied"]
        ++ map (fun _ => PrintedError GoSolution.ErrInvalid)
             ["+15124156620"; "+14152345678"]
        ++ [PrintedCreated; PrintedCompleted]) w).
Proof.
  intros w dst.
  apply (proj2 (batch_when_create_fails w ["+15124156620"; "+14152345678"]
                  [] dst "permission denied" eq_refl)).
Defined.

(** ** A load followed by a lookup *)

Lemma substring_substring (k : nat) :
  forall j q, (k <= j)%nat ->
    substring 0 k (substring 0 j q) = substring 0 k q.
Proof.
  induction k as [|k IH]; intros j q Hk.
  - by rewrite !substring_0_0.
  - destruct j as [|j]; [lia|]. destruct q as [|a q]; [done|].
    simpl. f_equal. apply IH. lia.
Qed.

Lemma is_prefix_refl (p : string) : is_prefix p p.
Proof.
  unfold is_prefix. induction p as [|a p IH]; simpl; [done|].
  by destruct (ascii_dec a a).
Qed.

(** X11.  A route loaded into an index that holds no prefix of it
    answers every number that begins with it: after the load of the
    record [(p, c)], [getCost] returns [c] for every number with the
    prefix [p], whatever longer prefixes of the number are keys. *)
Theorem loaded_route_answers_its_numbers (w : World) (p c q : string) :
  (forall p', is_prefix p' p -> costs w !! p' = None) ->
  is_prefix p q ->
  let w' := (MainSolution.loadRouteCosts
               (SourceReader (csvReader [[p; c]])) w).2 in
  MainSolution.getCost q w' = (Returned c, w').
Proof.
  intros Hfree Hp w'. rewrite getCost_run. f_equal. f_equal.
  assert (costs w' = <[p := c]> (costs w)) as ->.
  { subst w'. simpl. unfold bind. rewrite insertRow_run. simpl.
    unfold mergeCost. by rewrite (Hfree p (is_prefix_refl p)). }
  pose proof (prefix_length p q Hp) as Hlen.
  apply prefix_is_slice in Hp as (j & Hj & Hpj).
  assert (String.length p = j) as Hlp
    by (rewrite Hpj; by apply length_substring_0).
  apply (scanCosts_shortest _ q _ "0" j c); [done| |].
  - rewrite <- Hpj. apply lookup_insert_eq.
  - intros k Hk.
    assert (substring 0 k q = substring 0 k p) as ->.
    { rewrite Hpj. symmetry. apply substring_substring. lia. }
    rewrite lookup_insert_ne.
    + apply Hfree. apply slice_is_prefix. lia.
    + intros E. apply (f_equal String.length) in E.
      rewrite length_substring_0 in E; lia.
Qed.

Lemma loaded_route_answers_its_numbers_witness :
  let w := withCosts (<["+1415234" := "0.03"]> ∅) world0 in
  let w' := (MainSolution.loadRouteCosts
               (SourceReader (csvReader [["+1415"; "0.02"]])) w).2 in
  MainSolution.getCost "+14152345678" w' = (Returned "0.02", w').
Proof.
  intros w.
  apply (loaded_route_answers_its_numbers w "+1415" "0.02" "+14152345678").
  - intros p' Hp'. apply prefix_is_slice in Hp' as (i & Hi & ->).
    simpl in Hi. do 6 (destruct i as [|i]; [vm_compute; reflexivity|]). lia.
  - reflexivity.
Defined.

(** * The menu *)

(** ** [getInput] *)

Lemma removeNewlines_line (line : string) :
  no_newline line ->
  removeNewlines line = line /\ removeNewlines (line ++ newline) = line.
Proof.
  unfold no_newline. induction line as [|a line IH]; simpl; intros H.
  - done.
  - destruct (Ascii.eqb_spec a (ascii_of_nat 10)) as [->|Hne].
    + exfalso. apply H. by left.
    + destruct IH as [-> ->]; [|done]. intros Hin. apply H. by right.
Qed.

Lemma removeNewlines_clean (sentence : string) :
  no_newline (removeNewlines sentence).
Proof.
  unfold no_newline. induction sentence as [|a sentence IH]; simpl; [tauto|].
  destruct (Ascii.eqb_spec a (ascii_of_nat 10)) as [->|Hne]; [done|].
  simpl. intros [E|Hin]; [by apply Hne|by apply IH].
Qed.

Lemma getInput_run s : MainMenu.getInput s = (Returned (typed s), afterInput s).
Proof.
  unfold MainMenu.getInput, typed, afterInput. by destruct (stdin s).
Qed.

Lemma go_getInput_eq : GoMenu.getInput = MainMenu.getInput.
Proof. reflexivity. Qed.

(** X12.  [getInput] returns the line that was typed, without its
    newline: for a line that holds no newline byte, read with its newline
    or at the end of the input without one, the result is the line
    itself, and the sentence is taken off the input; in both programs. *)
Theorem getInput_returns_typed_line
  (s : Console) (line : string) (rest : list string) :
  no_newline line ->
  stdin s = (line ++ newline) :: rest \/ stdin s = line :: rest ->
  MainMenu.getInput s
  = (Returned line, mkConsole (world s) rest (menu s ++ [Prompt])) /\
  GoMenu.getInput s
  = (Returned line, mkConsole (world s) rest (menu s ++ [Prompt])).
Proof.
  intros Hline Hin. rewrite go_getInput_eq, getInput_run.
  unfold typed, afterInput.
  destruct (removeNewlines_line line Hline) as [H1 H2].
  destruct Hin as [->| ->]; simpl; by rewrite ?H1, ?H2.
Qed.

Lemma getInput_returns_typed_line_witness :
  MainMenu.getInput (mkConsole world0 ["+14152345678" ++ newline; "5"] [])
  = (Returned "+14152345678", mkConsole world0 ["5"] [Prompt]).
Proof.
  apply (proj1 (getInput_returns_typed_line
                  (mkConsole world0 ["+14152345678" ++ newline; "5"] [])
                  "+14152345678" ["5"]
                  (removeNewlines_clean "+14152345678")
                  (or_introl eq_refl))).
Defined.

(** X13.  Whatever the input holds, [getInput] returns a string without
    a newline byte and leaves the state of the process as it was; when
    the input is exhausted it returns the empty string, and the input
    stays exhausted. *)
Theorem getInput_result (s : Console) :
  (exists r s',
     MainMenu.getInput s = (Returned r, s') /\
     no_newline r /\
     world s' = world s) /\
  MainMenu.getInput (mkConsole (world s) [] (menu s))
  = (Returned "", mkConsole (world s) [] (menu s ++ [Prompt])).
Proof.
  split; [|done].
  exists (typed s), (afterInput s). rewrite getInput_run.
  split; [done|]. split; [apply removeNewlines_clean|done].
Qed.

(** ** The file selection *)

Lemma fileAt_succ files (i : nat) :
  fileAt files (Z.of_nat (S i) - 1) = nth_error files i.
Proof.
  unfold fileAt.
  replace (Z.of_nat (S i) - 1)%Z with (Z.of_nat i) by lia.
  destruct (Z.ltb_spec (Z.of_nat i) 0); [lia|]. by rewrite Nat2Z.id.
Qed.

Lemma fileAt_Some files index name :
  fileAt files (index - 1) = Some name ->
  exists i : nat, index = Z.of_nat (S i) /\ nth_error files i = Some name.
Proof.
  unfold fileAt. destruct (Z.ltb_spec (index - 1) 0) as [|Hge]; [done|].
  intros H. exists (Z.to_nat (index - 1)). split; [lia|done].
Qed.

Lemma fileAt_None files index :
  (index < 1 \/ Z.of_nat (List.length files) < index)%Z ->
  fileAt files (index - 1) = None.
Proof.
  intros H. unfold fileAt. destruct (Z.ltb_spec (index - 1) 0); [done|].
  apply nth_error_None. lia.
Qed.

Lemma matching_In flt allFiles name :
  In name (matching flt allFiles) ->
  In name allFiles /\ Contains name flt = true.
Proof. unfold matching. intros H. by apply filter_In in H. Qed.

Lemma listFiles_run env flt allFiles s :
  readDir env = inr allFiles ->
  MainMenu.listFiles env flt s
  = let files := matching flt allFiles in
    let s' := afterSelection files s in
    match Atoi (typed s) with
    | None => (Returned ("", Some ""), s')
    | Some index =>
        if ((index <? 0) || (Z.of_nat (List.length files) <=? index))%Z
        then (Returned ("", Some "invalid option: index out of range"), s')
        else match fileAt files (index - 1) with
             | Some name => (Returned (name, None), s')
             | None => (Panicked, s')
             end
    end.
Proof.
  intros Hdir. unfold MainMenu.listFiles. rewrite Hdir.
  unfold bindC, printMenu. rewrite getInput_run.
  unfold typed, afterInput, afterSelection; simpl.
  destruct (Atoi _) as [index|]; [|done].
  destruct (_ || _); [done|]. by destruct (fileAt _ _).
Qed.

(** X14.  When [listFiles] returns a file name without an error, the
    answer was a number [i + 1] with [1 <= i + 1 < len(files)], and the
    name is the one at position [i] of the files of the directory whose
    name contains the filter: a file that does not match the filter is
    never returned, and neither is the last file of the listing. *)
Theorem listFiles_returns_listed_file
  (env : Env) (flt : string) (s s' : Console) (name : string) :
  MainMenu.listFiles env flt s = (Returned (name, None), s') ->
  exists (allFiles : list string) (i : nat),
    readDir env = inr allFiles /\
    Atoi (typed s) = Some (Z.of_nat (S i)) /\
    nth_error (matching flt allFiles) i = Some name /\
    (S (S i) <= List.length (matching flt allFiles))%nat /\
    In name allFiles /\ Contains name flt = true.
Proof.
  intros H. destruct (readDir env) as [err|allFiles] eqn:Hdir.
  - unfold MainMenu.listFiles in H. rewrite Hdir in H. done.
  - rewrite (listFiles_run env flt allFiles s Hdir) in H. simpl in H.
    destruct (Atoi (typed s)) as [index|]; [|done].
    destruct (Z.ltb_spec index 0); [done|].
    destruct (Z.leb_spec (Z.of_nat (List.length (matching flt allFiles))) index);
      [done|]. simpl in H.
    destruct (fileAt _ _) as [name'|] eqn:Hat; [|done].
    injection H as -> _.
    apply fileAt_Some in Hat as (i & -> & Hi).
    exists allFiles, i. split; [done|]. split; [done|]. split; [done|].
    split; [lia|]. apply matching_In with (allFiles := allFiles).
    by apply nth_error_In with i.
Qed.

Lemma listFiles_returns_listed_file_witness :
  let env := mkEnv (inr ["carrier-routes-1.txt"; "carrier-routes-2.txt";
                         "phone-numbers-1.txt"])
               (fun _ => SourceReader []) (fun _ => healthyDest) in
  let s := mkConsole world0 ["1" ++ newline] [] in
  exists (allFiles : list string) (i : nat),
    readDir env = inr allFiles /\
    Atoi (typed s) = Some (Z.of_nat (S i)) /\
    nth_error (matching "route" allFiles) i = Some "carrier-routes-1.txt" /\
    (S (S i) <= List.length (matching "route" allFiles))%nat /\
    In "carrier-routes-1.txt" allFiles /\
    Contains "carrier-routes-1.txt" "route" = true.
Proof.
  intros env s.
  apply (listFiles_returns_listed_file env "route" s
           (afterSelection (matching "route" ["carrier-routes-1.txt";
              "carrier-routes-2.txt"; "phone-numbers-1.txt"]) s)).
  vm_compute. reflexivity.
Defined.

(** X15.  An answer [i + 1] with [1 <= i + 1 < len(files)] selects the
    file at position [i] of the listing: [listFiles] returns its name and
    no error, and has shown the listing and read one sentence. *)
Theorem listFiles_accepts_choice
  (env : Env) (flt : string) (allFiles : list string) (s : Console)
  (i : nat) (name : string) :
  readDir env = inr allFiles ->
  Atoi (typed s) = Some (Z.of_nat (S i)) ->
  nth_error (matching flt allFiles) i = Some name ->
  (S (S i) <= List.length (matching flt allFiles))%nat ->
  MainMenu.listFiles env flt s
  = (Returned (name, None), afterSelection (matching flt allFiles) s).
Proof.
  intros Hdir Hchoice Hname Hlen.
  rewrite (listFiles_run env flt allFiles s Hdir). simpl. rewrite Hchoice.
  destruct (Z.ltb_spec (Z.of_nat (S i)) 0); [lia|].
  destruct (Z.leb_spec (Z.of_nat (List.length (matching flt allFiles)))
              (Z.of_nat (S i))); [lia|]. simpl.
  by rewrite fileAt_succ, Hname.
Qed.

Lemma listFiles_accepts_choice_witness :
  let files := ["carrier-routes-1.txt"; "carrier-routes-2.txt";
                "phone-numbers-1.txt"] in
  let env := mkEnv (inr files) (fun _ => SourceReader [])
               (fun _ => healthyDest) in
  let s := mkConsole world0 ["1" ++ newline] [] in
  MainMenu.listFiles env "route" s
  = (Returned ("carrier-routes-1.txt", None),
     afterSelection (matching "route" files) s).
Proof.
  intros files env s.
  apply (listFiles_accepts_choice env "route" files s 0
           "carrier-routes-1.txt" eq_refl eq_refl eq_refl).
  vm_compute. lia.
Defined.

(** X16.  An answer that is negative, or [len(files)] or more, is turned
    down with "invalid option: index out of range": the number shown in
    front of the last file of the listing is such an answer. *)
Theorem listFiles_rejects_last_choice
  (env : Env) (flt : string) (allFiles : list string) (s : Console)
  (index : Z) :
  readDir env = inr allFiles ->
  Atoi (typed s) = Some index ->
  (index < 0 \/ Z.of_nat (List.length (matching flt allFiles)) <= index)%Z ->
  MainMenu.listFiles env flt s
  = (Returned ("", Some "invalid option: index out of range"),
     afterSelection (matching flt allFiles) s).
Proof.
  intros Hdir Hchoice Hout.
  rewrite (listFiles_run env flt allFiles s Hdir). simpl. rewrite Hchoice.
  destruct (Z.ltb_spec index 0); [done|].
  destruct (Z.leb_spec (Z.of_nat (List.length (matching flt allFiles))) index);
    [done|lia].
Qed.

Lemma listFiles_rejects_last_choice_witness :
  let files := ["carrier-routes-1.txt"; "carrier-routes-2.txt";
                "phone-numbers-1.txt"] in
  let env := mkEnv (inr files) (fun _ => SourceReader [])
               (fun _ => healthyDest) in
  let s := mkConsole world0 ["2" ++ newline] [] in
  MainMenu.listFiles env "route" s
  = (Returned ("", Some "invalid option: index out of range"),
     afterSelection (matching "route" files) s).
Proof.
  intros files env s.
  apply (listFiles_rejects_last_choice env "route" files s 2 eq_refl eq_refl).
  vm_compute. right. discriminate.
Defined.

(** X17.  The answer [0] passes the check of [listFiles] when a file is
    listed, and [files[index-1]] then panics. *)
Theorem listFiles_panics_on_zero
  (env : Env) (flt : string) (allFiles : list string) (s : Console) :
  readDir env = inr allFiles ->
  Atoi (typed s) = Some 0%Z ->
  matching flt allFiles <> [] ->
  MainMenu.listFiles env flt s
  = (Panicked, afterSelection (matching flt allFiles) s).
Proof.
  intros Hdir Hchoice Hfiles.
  rewrite (listFiles_run env flt allFiles s Hdir). simpl. rewrite Hchoice.
  destruct (matching flt allFiles) as [|f files] eqn:E; [done|].
  reflexivity.
Qed.

Lemma listFiles_panics_on_zero_witness :
  let files := ["carrier-routes-1.txt"; "phone-numbers-1.txt"] in
  let env := mkEnv (inr files) (fun _ => SourceReader [])
               (fun _ => healthyDest) in
  let s := mkConsole world0 ["0" ++ newline] [] in
  MainMenu.listFiles env "route" s
  = (Panicked, afterSelection (matching "route" files) s).
Proof.
  intros files env s.
  apply (listFiles_panics_on_zero env "route" files s eq_refl eq_refl).
  vm_compute. discriminate.
Defined.

Lemma go_selectFile_run env flt s :
  GoMenu.selectFile env flt s
  = let files := matching flt (match readDir env with
                               | inl _ => []
                               | inr names => names
                               end) in
    let s' := afterSelection files s in
    match Atoi (typed s) with
    | None => (Returned None, s')
    | Some index =>
        match fileAt files (index - 1) with
        | Some name => (Returned (Some name), s')
        | None => (Panicked, s')
        end
    end.
Proof.
  unfold GoMenu.selectFile, bindC, printMenu.
  rewrite go_getInput_eq, getInput_run.
  unfold typed, afterInput, afterSelection; simpl.
  destruct (Atoi _) as [index|]; [|done]. by destruct (fileAt _ _).
Qed.

(** X18.  In [go_solution] every number of the listing selects its file,
    the last one included: on the answer [i + 1], [loadFile] loads the
    file at position [i] of the files whose name contains "route". *)
Theorem go_loadFile_loads_choice
  (env : Env) (allFiles : list string) (s : Console) (i : nat)
  (name : string) :
  readDir env = inr allFiles ->
  Atoi (typed s) = Some (Z.of_nat (S i)) ->
  nth_error (matching "route" allFiles) i = Some name ->
  GoMenu.loadFile env s
  = onWorld (GoSolution.loadFile (openFile env name))
      (afterSelection (matching "route" allFiles) s).
Proof.
  intros Hdir Hchoice Hname. unfold GoMenu.loadFile, bindC.
  rewrite go_selectFile_run, Hdir. simpl. rewrite Hchoice.
  by rewrite fileAt_succ, Hname.
Qed.

Lemma go_loadFile_loads_choice_witness :
  let files := ["carrier-routes-1.txt"; "carrier-routes-2.txt";
                "phone-numbers-1.txt"] in
  let env := mkEnv (inr files)
               (fun _ => SourceReader (csvReader readmeRoutes))
               (fun _ => healthyDest) in
  let s := mkConsole world0 ["2" ++ newline] [] in
  GoMenu.loadFile env s
  = onWorld (GoSolution.loadFile (openFile env "carrier-routes-2.txt"))
      (afterSelection (matching "route" files) s).
Proof.
  intros files env s.
  apply (go_loadFile_loads_choice env files s 1 "carrier-routes-2.txt"
           eq_refl eq_refl eq_refl).
Defined.

(** X19.  [go_solution] reads [files[index-1]] without a check: an
    answer that is a number below [1] or above the number of listed files
    makes [loadFile] and [getCosts] panic, with the index as it was; an
    answer that is no number makes them return, with the index as it
    was. *)
Theorem go_selection_unchecked
  (env : Env) (persist : bool) (s : Console) :
  let routes := matching "route" (match readDir env with
                                  | inl _ => []
                                  | inr names => names
                                  end) in
  let phones := matching "phone" (match readDir env with
                                  | inl _ => []
                                  | inr names => names
                                  end) in
  (forall index,
     Atoi (typed s) = Some index ->
     (index < 1 \/ Z.of_nat (List.length routes) < index)%Z ->
     GoMenu.loadFile env s = (Panicked, afterSelection routes s)) /\
  (forall index,
     Atoi (typed s) = Some index ->
     (index < 1 \/ Z.of_nat (List.length phones) < index)%Z ->
     GoMenu.getCosts env persist s = (Panicked, afterSelection phones s)) /\
  (Atoi (typed s) = None ->
   GoMenu.loadFile env s = (Returned tt, afterSelection routes s) /\
   GoMenu.getCosts env persist s = (Returned tt, afterSelection phones s)).
Proof.
  intros routes phones. split; [|split].
  - intros index Hchoice Hout. unfold GoMenu.loadFile, bindC.
    rewrite go_selectFile_run. cbv zeta. rewrite Hchoice.
    fold routes. by rewrite (fileAt_None _ _ Hout).
  - intros index Hchoice Hout. unfold GoMenu.getCosts, bindC.
    rewrite go_selectFile_run. cbv zeta. rewrite Hchoice.
    fold phones. by rewrite (fileAt_None _ _ Hout).
  - intros Hchoice. unfold GoMenu.loadFile, GoMenu.getCosts, bindC.
    rewrite !go_selectFile_run. cbv zeta. by rewrite Hchoice.
Qed.

Lemma go_selection_unchecked_witness :
  let files := ["carrier-routes-1.txt"; "phone-numbers-1.txt"] in
  let env := mkEnv (inr files) (fun _ => SourceReader [])
               (fun _ => healthyDest) in
  GoMenu.loadFile env (mkConsole world0 ["2" ++ newline] [])
  = (Panicked,
     afterSelection (matching "route" files)
       (mkConsole world0 ["2" ++ newline] [])) /\
  GoMenu.loadFile env (mkConsole world0 ["q" ++ newline] [])
  = (Returned tt,
     afterSelection (matching "route" files)
       (mkConsole world0 ["q" ++ newline] [])).
Proof.
  intros files env. split.
  - apply (proj1 (go_selection_unchecked env false
                    (mkConsole world0 ["2" ++ newline] [])) 2%Z eq_refl).
    vm_compute. right. reflexivity.
  - apply (proj1 (proj2 (proj2 (go_selection_unchecked env false
                    (mkConsole world0 ["q" ++ newline] []))) eq_refl)).
Defined.

(** ** The menu loop *)

Lemma session_step_refl s : session_step s s.
Proof. split; [apply index_grows_refl|done]. Qed.

Lemma session_step_trans s1 s2 s3 :
  session_step s1 s2 -> session_step s2 s3 -> session_step s1 s3.
Proof.
  intros [G1 S1] [G2 S2]. split.
  - by apply index_grows_trans with (costs (world s2)).
  - by transitivity (stdin s2).
Qed.

Lemma steps_retC {A} (a : A) : steps (retC a).
Proof. intros s. apply session_step_refl. Qed.

Lemma steps_panicC {A} : steps (@panicC A).
Proof. intros s. apply session_step_refl. Qed.

Lemma steps_bindC {A B} (c : C A) (k : A -> C B) :
  steps c -> (forall a, steps (k a)) -> steps (bindC c k).
Proof.
  intros Hc Hk s. unfold bindC. specialize (Hc s).
  destruct (c s) as [[a| |] s1]; simpl in *; [|done|done].
  apply session_step_trans with s1; [done|apply Hk].
Qed.

Lemma steps_printMenu events : steps (printMenu events).
Proof. intros s. split; [apply index_grows_refl|done]. Qed.

Lemma steps_lenCosts : steps lenCosts.
Proof. intros s. apply session_step_refl. Qed.

Lemma steps_getInput : steps MainMenu.getInput.
Proof.
  intros s. rewrite getInput_run. split; [apply index_grows_refl|].
  simpl. destruct (stdin s); [done|]. by apply suffix_cons_r.
Qed.

Lemma steps_onWorld {A} (c : M A) :
  (forall w, index_grows (costs w) (costs (c w).2)) -> steps (onWorld c).
Proof.
  intros Hc s. unfold onWorld. specialize (Hc (world s)).
  destruct (c (world s)) as [o w]. split; [done|done].
Qed.

Lemma steps_listFiles env flt : steps (MainMenu.listFiles env flt).
Proof.
  unfold MainMenu.listFiles. destruct (readDir env); [apply steps_retC|].
  apply steps_bindC; [apply steps_printMenu|]. intros _.
  apply steps_bindC; [apply steps_getInput|]. intros choice.
  destruct (Atoi choice); [|apply steps_retC].
  destruct (_ || _); [apply steps_retC|].
  destruct (fileAt _ _); [apply steps_retC|apply steps_panicC].
Qed.

Lemma steps_selectFile env flt : steps (GoMenu.selectFile env flt).
Proof.
  unfold GoMenu.selectFile.
  apply steps_bindC; [apply steps_printMenu|]. intros _.
  apply steps_bindC; [apply steps_getInput|]. intros choice.
  destruct (Atoi choice); [|apply steps_retC].
  destruct (fileAt _ _); [apply steps_retC|apply steps_panicC].
Qed.

Lemma printEvent_grows e w :
  index_grows (costs w) (costs (printEvent e w).2).
Proof. apply index_grows_refl. Qed.

Lemma getAllCosts_grows persist src dst w :
  index_grows (costs w)
    (costs (MainSolution.getAllCosts persist src dst w).2).
Proof.
  destruct (getAllCosts_frame persist src dst w) as [-> _].
  apply index_grows_refl.
Qed.

Lemma go_getCosts_grows persist src dst w :
  index_grows (costs w) (costs (GoSolution.getCosts persist src dst w).2).
Proof.
  destruct (go_getCosts_frame persist src dst w) as [-> _].
  apply index_grows_refl.
Qed.

Lemma steps_loadRouteCosts env : steps (MainMenu.loadRouteCosts env).
Proof.
  apply steps_bindC; [apply steps_listFiles|]. intros [name [err|]].
  - apply steps_onWorld, printEvent_grows.
  - apply steps_onWorld, loadRouteCosts_grows.
Qed.

Lemma steps_getAllCosts env persist : steps (MainMenu.getAllCosts env persist).
Proof.
  apply steps_bindC; [apply steps_listFiles|]. intros [name [err|]].
  - apply steps_onWorld, printEvent_grows.
  - apply steps_onWorld, getAllCosts_grows.
Qed.

Lemma steps_go_loadFile env : steps (GoMenu.loadFile env).
Proof.
  apply steps_bindC; [apply steps_selectFile|]. intros [name|].
  - apply steps_onWorld, go_loadFile_grows.
  - apply steps_retC.
Qed.

Lemma steps_go_getCosts env persist : steps (GoMenu.getCosts env persist).
Proof.
  apply steps_bindC; [apply steps_selectFile|]. intros [name|].
  - apply steps_onWorld, go_getCosts_grows.
  - apply steps_retC.
Qed.

Lemma steps_go_getCost : steps GoMenu.getCost.
Proof.
  apply steps_bindC; [apply steps_printMenu|]. intros _.
  apply steps_bindC; [apply steps_getInput|]. intros input.
  apply steps_onWorld. intros w. rewrite go_getCost_run.
  apply index_grows_refl.
Qed.

Lemma steps_main env fuel : steps (MainMenu.main env fuel).
Proof.
  induction fuel as [|fuel IH]; [apply steps_retC|].
  cbn [MainMenu.main].
  apply steps_bindC; [apply steps_lenCosts|]. intros loaded.
  apply steps_bindC; [apply steps_printMenu|]. intros _.
  apply steps_bindC; [apply steps_getInput|]. intros choice.
  destruct (String.eqb choice "1").
  { apply steps_bindC; [apply steps_loadRouteCosts|intros _; apply IH]. }
  destruct (String.eqb choice "2").
  { apply steps_bindC; [apply steps_printMenu|intros _].
    apply steps_bindC; [apply steps_getInput|intros prefix].
    apply steps_bindC; [|intros result].
    { apply steps_onWorld. intros w. rewrite getCost_run.
      apply index_grows_refl. }
    apply steps_bindC; [|intros _; apply IH].
    apply steps_onWorld, printEvent_grows. }
  destruct (String.eqb choice "3").
  { apply steps_bindC; [apply steps_getAllCosts|intros _; apply IH]. }
  destruct (String.eqb choice "4").
  { apply steps_bindC; [apply steps_getAllCosts|intros _; apply IH]. }
  destruct (String.eqb choice "5"); [apply steps_retC|].
  apply steps_bindC; [apply steps_printMenu|intros _; apply IH].
Qed.

Lemma steps_mainMenu env fuel : steps (GoMenu.mainMenu env fuel).
Proof.
  induction fuel as [|fuel IH]; [apply steps_retC|].
  cbn [GoMenu.mainMenu].
  apply steps_bindC; [apply steps_lenCosts|]. intros loaded.
  apply steps_bindC; [apply steps_printMenu|]. intros _.
  apply steps_bindC; [apply steps_getInput|]. intros choice.
  destruct (String.eqb choice "1").
  { apply steps_bindC; [apply steps_go_loadFile|intros _; apply IH]. }
  destruct (String.eqb choice "2").
  { apply steps_bindC; [apply steps_go_getCost|intros _; apply IH]. }
  destruct (String.eqb choice "3").
  { apply steps_bindC; [apply steps_go_getCosts|intros _; apply IH]. }
  destruct (String.eqb choice "4").
  { apply steps_bindC; [apply steps_go_getCosts|intros _; apply IH]. }
  destruct (String.eqb choice "5"); [apply steps_retC|].
  apply steps_bindC; [apply steps_printMenu|intros _; apply IH].
Qed.

(** X20.  Over a whole session of the menu, whatever is typed, whatever
    the files hold and however the session ends, no key leaves the index
    and no stored cost is raised (in Go's order on strings): there is no
    menu action that deletes or resets; in both programs. *)
Theorem session_never_removes_or_raises
  (env : Env) (fuel : nat) (s : Console) :
  index_grows (costs (world s))
    (costs (world (MainMenu.main env fuel s).2)) /\
  index_grows (costs (world s))
    (costs (world (GoMenu.main env fuel s).2)).
Proof.
  split; [apply (steps_main env fuel s)|apply (steps_mainMenu env fuel s)].
Qed.

Lemma suffix_In {A} (x : A) (l1 l2 : list A) :
  l1 `suffix_of` l2 -> In x l1 -> In x l2.
Proof. intros [k ->] H. apply in_or_app. by right. Qed.

Lemma ends_on_five_bindC {A} (c : C A) (k : A -> C Ran) :
  steps c -> (forall a, ends_on_five (k a)) -> ends_on_five (bindC c k).
Proof.
  intros Hc Hk s s' H. unfold bindC in H. specialize (Hc s).
  destruct (c s) as [[a| |] s1]; [|done|done].
  destruct (Hk a s1 s' H) as (sentence & Hin & H5).
  exists sentence. split; [|done].
  destruct Hc as [_ Hsuf]. by apply (suffix_In _ _ _ Hsuf).
Qed.

Lemma ends_on_five_choice (k : string -> C Ran) :
  (forall choice,
     String.eqb choice "5" = false -> ends_on_five (k choice)) ->
  ends_on_five (bindC MainMenu.getInput k).
Proof.
  intros Hk s s' H. unfold bindC in H. rewrite getInput_run in H.
  destruct (String.eqb_spec (typed s) "5") as [E|Hne].
  - unfold typed in E. destruct (stdin s) as [|sentence rest]; [done|].
    exists sentence. split; [by left|done].
  - apply String.eqb_neq in Hne.
    destruct (Hk (typed s) Hne _ _ H) as (sentence & Hin & H5).
    exists sentence. split; [|done].
    simpl in Hin. destruct (stdin s); [done|]. by right.
Qed.

Lemma ends_on_five_main env fuel : ends_on_five (MainMenu.main env fuel).
Proof.
  induction fuel as [|fuel IH]; [by intros s s' H|].
  cbn [MainMenu.main].
  apply ends_on_five_bindC; [apply steps_lenCosts|]. intros loaded.
  apply ends_on_five_bindC; [apply steps_printMenu|]. intros _.
  apply ends_on_five_choice. intros choice H5. rewrite H5.
  destruct (String.eqb choice "1").
  { apply ends_on_five_bindC; [apply steps_loadRouteCosts|done]. }
  destruct (String.eqb choice "2").
  { apply ends_on_five_bindC; [apply steps_printMenu|intros _].
    apply ends_on_five_bindC; [apply steps_getInput|intros prefix].
    apply ends_on_five_bindC; [|intros result].
    { apply steps_onWorld. intros w. rewrite getCost_run.
      apply index_grows_refl. }
    apply ends_on_five_bindC; [|done].
    apply steps_onWorld, printEvent_grows. }
  destruct (String.eqb choice "3").
  { apply ends_on_five_bindC; [apply steps_getAllCosts|done]. }
  destruct (String.eqb choice "4").
  { apply ends_on_five_bindC; [apply steps_getAllCosts|done]. }
  apply ends_on_five_bindC; [apply steps_printMenu|done].
Qed.

Lemma ends_on_five_mainMenu env fuel : ends_on_five (GoMenu.mainMenu env fuel).
Proof.
  induction fuel as [|fuel IH]; [by intros s s' H|].
  cbn [GoMenu.mainMenu].
  apply ends_on_five_bindC; [apply steps_lenCosts|]. intros loaded.
  apply ends_on_five_bindC; [apply steps_printMenu|]. intros _.
  rewrite go_getInput_eq.
  apply ends_on_five_choice. intros choice H5. rewrite H5.
  destruct (String.eqb choice "1").
  { apply ends_on_five_bindC; [apply steps_go_loadFile|done]. }
  destruct (String.eqb choice "2").
  { apply ends_on_five_bindC; [apply steps_go_getCost|done]. }
  destruct (String.eqb choice "3").
  { apply ends_on_five_bindC; [apply steps_go_getCosts|done]. }
  destruct (String.eqb choice "4").
  { apply ends_on_five_bindC; [apply steps_go_getCosts|done]. }
  apply ends_on_five_bindC; [apply steps_printMenu|done].
Qed.

(** X21.  The menu loop is left through [return] only on the answer
    "5": whenever a session finishes, one of the sentences of its input
    was "5" (with or without newline bytes); in both programs. *)
Theorem session_finishes_only_on_five
  (env : Env) (fuel : nat) (s s' : Console) :
  MainMenu.main env fuel s = (Returned Finished, s') \/
  GoMenu.main env fuel s = (Returned Finished, s') ->
  exists sentence, In sentence (stdin s) /\ removeNewlines sentence = "5".
Proof.
  intros [H|H].
  - by apply (ends_on_five_main env fuel s s').
  - by apply (ends_on_five_mainMenu env fuel s s').
Qed.

Lemma session_finishes_only_on_five_witness :
  exists sentence,
    In sentence ["x" ++ newline; "5" ++ newline; "1" ++ newline] /\
    removeNewlines sentence = "5".
Proof.
  apply (session_finishes_only_on_five
           (mkEnv (inl "no such directory") (fun _ => SourceReader [])
              (fun _ => healthyDest))
           2
           (mkConsole world0 ["x" ++ newline; "5" ++ newline; "1" ++ newline] [])
           (mkConsole world0 ["1" ++ newline]
              [Welcome 0; Prompt; InvalidInput; Welcome 0; Prompt])).
  left. vm_compute. reflexivity.
Defined.

Lemma main_round_at_end env fuel w events :
  MainMenu.main env (S fuel) (mkConsole w [] events)
  = MainMenu.main env fuel
      (mkConsole w [] (events ++ invalidRound (size (costs w)))).
Proof.
  cbn [MainMenu.main]. unfold bindC, lenCosts, printMenu.
  rewrite getInput_run. unfold typed, afterInput, invalidRound. simpl.
  by rewrite <- !app_assoc.
Qed.

Lemma mainMenu_round_at_end env fuel w events :
  GoMenu.mainMenu env (S fuel) (mkConsole w [] events)
  = GoMenu.mainMenu env fuel
      (mkConsole w [] (events ++ invalidRound (size (costs w)))).
Proof.
  cbn [GoMenu.mainMenu]. unfold bindC, lenCosts, printMenu.
  rewrite go_getInput_eq, getInput_run.
  unfold typed, afterInput, invalidRound. simpl.
  by rewrite <- !app_assoc.
Qed.

Lemma main_at_end_of_input env fuel :
  forall w events,
    MainMenu.main env fuel (mkConsole w [] events)
    = (Returned OutOfFuel,
       mkConsole w []
         (events ++ concat (replicate fuel (invalidRound (size (costs w)))))).
Proof.
  induction fuel as [|fuel IH]; intros w events.
  - simpl. unfold retC. by rewrite app_nil_r.
  - rewrite main_round_at_end, IH. simpl. by rewrite <- app_assoc.
Qed.

Lemma mainMenu_at_end_of_input env fuel :
  forall w events,
    GoMenu.mainMenu env fuel (mkConsole w [] events)
    = (Returned OutOfFuel,
       mkConsole w []
         (events ++ concat (replicate fuel (invalidRound (size (costs w)))))).
Proof.
  induction fuel as [|fuel IH]; intros w events.
  - simpl. unfold retC. by rewrite app_nil_r.
  - rewrite mainMenu_round_at_end, IH. simpl. by rewrite <- app_assoc.
Qed.

(** X22.  Once the input is exhausted the menu loop never ends: every
    [getInput] returns the empty string, which is no choice, so each
    round shows the menu and "Invalid input!" and changes nothing else;
    however many rounds are run, the loop is still running; in both
    programs. *)
Theorem session_spins_at_end_of_input
  (env : Env) (fuel : nat) (s : Console) :
  stdin s = [] ->
  MainMenu.main env fuel s
  = (Returned OutOfFuel,
     mkConsole (world s) []
       (menu s ++ concat (replicate fuel
                            (invalidRound (size (costs (world s))))))) /\
  GoMenu.main env fuel s
  = (Returned OutOfFuel,
     mkConsole (world s) []
       (menu s ++ concat (replicate fuel
                            (invalidRound (size (costs (world s))))))).
Proof.
  destruct s as [w input events]. simpl. intros ->. unfold GoMenu.main.
  by rewrite main_at_end_of_input, mainMenu_at_end_of_input.
Qed.

Lemma session_spins_at_end_of_input_witness :
  let env := mkEnv (inr []) (fun _ => SourceReader [])
               (fun _ => healthyDest) in
  let s := mkConsole (withCosts readmeIndex world0) [] [] in
  MainMenu.main env 3 s
  = (Returned OutOfFuel,
     mkConsole (world s) []
       (menu s ++ concat (replicate 3
                            (invalidRound (size (costs (world s))))))).
Proof.
  intros env s.
  apply (proj1 (session_spins_at_end_of_input env 3 s eq_refl)).
Defined.

Lemma main_round_five env fuel w rest events :
  MainMenu.main env (S fuel) (mkConsole w (("5" ++ newline) :: rest) events)
  = (Returned Finished,
     mkConsole w rest (events ++ [Welcome (size (costs w)); Prompt])).
Proof.
  cbn [MainMenu.main]. unfold bindC, lenCosts, printMenu.
  rewrite getInput_run. unfold typed, afterInput, retC. simpl.
  by rewrite <- !app_assoc.
Qed.

Lemma mainMenu_round_five env fuel w rest events :
  GoMenu.mainMenu env (S fuel) (mkConsole w (("5" ++ newline) :: rest) events)
  = (Returned Finished,
     mkConsole w rest (events ++ [Welcome (size (costs w)); Prompt])).
Proof.
  cbn [GoMenu.mainMenu]. unfold bindC, lenCosts, printMenu.
  rewrite go_getInput_eq, getInput_run. unfold typed, afterInput, retC. simpl.
  by rewrite <- !app_assoc.
Qed.

Lemma main_round_two env fuel w q rest events :
  no_newline q ->
  MainMenu.main env (S fuel)
    (mkConsole w (("2" ++ newline) :: (q ++ newline) :: rest) events)
  = MainMenu.main env fuel
      (mkConsole
         (withStdout (stdout w ++ [PrintedCost q (lookupCost (costs w) q)]) w)
         rest
         (events ++ [Welcome (size (costs w)); Prompt; EnterNumber; Prompt])).
Proof.
  intros Hq. destruct (removeNewlines_line q Hq) as [_ Hline].
  cbn [MainMenu.main]. unfold bindC at 1. unfold lenCosts.
  unfold bindC at 1. unfold printMenu at 1.
  unfold bindC at 1. rewrite getInput_run. unfold typed, afterInput.
  cbn [world stdin menu List.hd List.tl].
  change (removeNewlines ("2" ++ newline)) with "2".
  cbn [String.eqb Ascii.eqb Bool.eqb].
  unfold bindC at 1. unfold printMenu at 1.
  unfold bindC at 1. rewrite getInput_run. unfold typed, afterInput.
  cbn [world stdin menu List.hd List.tl]. rewrite Hline.
  unfold bindC at 1. unfold onWorld at 1. cbn [world stdin menu].
  rewrite getCost_run.
  unfold bindC at 1. unfold onWorld, printEvent. cbn [world stdin menu].
  unfold withStdout. cbn [costs stdout resultFile].
  by rewrite <- !app_assoc.
Qed.

Lemma mainMenu_round_two env fuel w q rest events :
  no_newline q ->
  GoMenu.mainMenu env (S fuel)
    (mkConsole w (("2" ++ newline) :: (q ++ newline) :: rest) events)
  = GoMenu.mainMenu env fuel
      (mkConsole
         (withStdout (stdout w ++ [PrintedCost q (lookupCost (costs w) q)]) w)
         rest
         (events ++ [Welcome (size (costs w)); Prompt; EnterNumber; Prompt])).
Proof.
  intros Hq. destruct (removeNewlines_line q Hq) as [_ Hline].
  cbn [GoMenu.mainMenu]. unfold bindC at 1. unfold lenCosts.
  unfold bindC at 1. unfold printMenu at 1.
  unfold bindC at 1. rewrite go_getInput_eq, getInput_run.
  unfold typed, afterInput.
  cbn [world stdin menu List.hd List.tl].
  change (removeNewlines ("2" ++ newline)) with "2".
  cbn [String.eqb Ascii.eqb Bool.eqb].
  unfold bindC at 1. unfold GoMenu.getCost.
  unfold bindC at 1. unfold printMenu at 1.
  unfold bindC at 1. rewrite go_getInput_eq, getInput_run.
  unfold typed, afterInput.
  cbn [world stdin menu List.hd List.tl]. rewrite Hline.
  unfold onWorld at 1. cbn [world stdin menu].
  rewrite go_getCost_run. unfold withStdout. cbn [costs stdout resultFile].
  by rewrite <- !app_assoc.
Qed.

(** X23.  A lookup through the menu: on the answers "2", a number [q]
    and "5" the session finishes, the index is as it was, and what was
    printed is the cost that [getCost] finds for [q] on that index; two
    rounds of the menu are enough and more rounds change nothing; in both
    programs. *)
Theorem session_lookup
  (env : Env) (fuel : nat) (s : Console) (q : string) (rest : list string) :
  no_newline q ->
  stdin s = ("2" ++ newline) :: (q ++ newline) :: ("5" ++ newline) :: rest ->
  let w := world s in
  let loaded := size (costs w) in
  let s' :=
    mkConsole
      (withStdout (stdout w ++ [PrintedCost q (lookupCost (costs w) q)]) w)
      rest
      (menu s ++ [Welcome loaded; Prompt; EnterNumber; Prompt;
                  Welcome loaded; Prompt]) in
  MainMenu.main env (S (S fuel)) s = (Returned Finished, s') /\
  GoMenu.main env (S (S fuel)) s = (Returned Finished, s').
Proof.
  intros Hq Hin. destruct s as [w input events]. simpl in Hin. subst input.
  unfold GoMenu.main. cbn [world menu].
  rewrite (main_round_two env (S fuel) w q _ events Hq), main_round_five.
  rewrite (mainMenu_round_two env (S fuel) w q _ events Hq),
    mainMenu_round_five.
  cbn [costs withStdout]. by rewrite <- !app_assoc.
Qed.

Lemma session_lookup_witness :
  let env := mkEnv (inr []) (fun _ => SourceReader [])
               (fun _ => healthyDest) in
  let s := mkConsole (withCosts readmeIndex world0)
             ["2" ++ newline; "+15124156620" ++ newline; "5" ++ newline] [] in
  MainMenu.main env 2 s
  = (Returned Finished,
     mkConsole
       (withStdout (stdout (world s)
                    ++ [PrintedCost "+15124156620"
                          (lookupCost (costs (world s)) "+15124156620")])
          (world s))
       []
       (menu s ++ [Welcome (size (costs (world s))); Prompt; EnterNumber;
                   Prompt; Welcome (size (costs (world s))); Prompt])).
Proof.
  intros env s.
  apply (proj1 (session_lookup env 0 s "+15124156620" []
                  (removeNewlines_clean "+15124156620") eq_refl)).
Defined.

Lemma main_round_one env fuel w sentence rest events :
  MainMenu.main env (S fuel)
    (mkConsole w (("1" ++ newline) :: sentence :: rest) events)
  = bindC (MainMenu.loadRouteCosts env) (fun _ => MainMenu.main env fuel)
      (mkConsole w (sentence :: rest)
         (events ++ [Welcome (size (costs w)); Prompt])).
Proof.
  cbn [MainMenu.main]. unfold bindC at 1. unfold lenCosts.
  unfold bindC at 1. unfold printMenu at 1.
  unfold bindC at 1. rewrite getInput_run. unfold typed, afterInput.
  cbn [world stdin menu List.hd List.tl].
  change (removeNewlines ("1" ++ newline)) with "1".
  cbn [String.eqb Ascii.eqb Bool.eqb].
  by rewrite <- !app_assoc.
Qed.

Lemma mainMenu_round_one env fuel w sentence rest events :
  GoMenu.mainMenu env (S fuel)
    (mkConsole w (("1" ++ newline) :: sentence :: rest) events)
  = bindC (GoMenu.loadFile env) (fun _ => GoMenu.mainMenu env fuel)
      (mkConsole w (sentence :: rest)
         (events ++ [Welcome (size (costs w)); Prompt])).
Proof.
  cbn [GoMenu.mainMenu]. unfold bindC at 1. unfold lenCosts.
  unfold bindC at 1. unfold printMenu at 1.
  unfold bindC at 1. rewrite go_getInput_eq, getInput_run.
  unfold typed, afterInput.
  cbn [world stdin menu List.hd List.tl].
  change (removeNewlines ("1" ++ newline)) with "1".
  cbn [String.eqb Ascii.eqb Bool.eqb].
  by rewrite <- !app_assoc.
Qed.

(** X24.  A load through the menu: on the answers "1", the number
    [i + 1] of a listed file that is not the last, and "5", the session
    finishes and the index is the one before with the records of that
    file merged into it; two rounds of the menu are enough; in both
    programs. *)
Theorem session_load
  (env : Env) (fuel : nat) (s : Console) (allFiles : list string)
  (sentence : string) (rest : list string) (i : nat) (name : string)
  (records : list (string * string)) :
  readDir env = inr allFiles ->
  stdin s = ("1" ++ newline) :: sentence :: ("5" ++ newline) :: rest ->
  Atoi (removeNewlines sentence) = Some (Z.of_nat (S i)) ->
  nth_error (matching "route" allFiles) i = Some name ->
  (S (S i) <= List.length (matching "route" allFiles))%nat ->
  openFile env name = SourceReader (map recordRow records) ->
  let w := world s in
  let w' := withStdout (stdout w ++ [PrintedCompleted])
              (withCosts (mergeAll (costs w) records) w) in
  let shown :=
    (menu s ++ [Welcome (size (costs w)); Prompt]
     ++ selectionLines (matching "route" allFiles)
     ++ [Prompt; Welcome (size (costs w')); Prompt])%list in
  MainMenu.main env (S (S fuel)) s
  = (Returned Finished, mkConsole w' rest shown) /\
  GoMenu.main env (S (S fuel)) s
  = (Returned Finished, mkConsole w' rest shown).
Proof.
  intros Hdir Hin Hchoice Hname Hlen Hopen.
  destruct s as [w input events]. simpl in Hin. subst input.
  unfold GoMenu.main. cbn [world menu]. split.
  - rewrite main_round_one. unfold bindC at 1.
    unfold MainMenu.loadRouteCosts. unfold bindC at 1.
    rewrite (listFiles_run env "route" allFiles _ Hdir). cbv zeta.
    unfold typed. cbn [stdin List.hd]. rewrite Hchoice.
    destruct (Z.ltb_spec (Z.of_nat (S i)) 0); [lia|].
    destruct (Z.leb_spec (Z.of_nat (List.length (matching "route" allFiles)))
                (Z.of_nat (S i))); [lia|].
    cbn [orb]. rewrite fileAt_succ, Hname.
    unfold onWorld, afterSelection. cbn [world stdin menu List.tl].
    rewrite Hopen, loadRouteCosts_records, main_round_five.
    cbn [costs withStdout]. by rewrite <- !app_assoc.
  - rewrite mainMenu_round_one. unfold bindC at 1.
    unfold GoMenu.loadFile. unfold bindC at 1.
    rewrite go_selectFile_run, Hdir. cbv zeta.
    unfold typed. cbn [stdin List.hd]. rewrite Hchoice.
    rewrite fileAt_succ, Hname.
    unfold onWorld, afterSelection. cbn [world stdin menu List.tl].
    rewrite Hopen, go_loadFile_records, mainMenu_round_five.
    cbn [costs withStdout]. by rewrite <- !app_assoc.
Qed.

Lemma session_load_witness :
  let files := ["carrier-routes-1.txt"; "carrier-routes-2.txt"] in
  let records := [("+1512", "0.04"); ("+1415", "0.02")] in
  let env := mkEnv (inr files) (fun _ => SourceReader (map recordRow records))
               (fun _ => healthyDest) in
  let s := mkConsole world0
             ["1" ++ newline; "1" ++ newline; "5" ++ newline] [] in
  let w' := withStdout (stdout (world s) ++ [PrintedCompleted])
              (withCosts (mergeAll (costs (world s)) records) (world s)) in
  MainMenu.main env 2 s
  = (Returned Finished,
     mkConsole w' []
       (menu s ++ [Welcome (size (costs (world s))); Prompt]
        ++ selectionLines (matching "route" files)
        ++ [Prompt; Welcome (size (costs w')); Prompt])).
Proof.
  intros files records env s.
  apply (proj1 (session_load env 0 s files ("1" ++ newline) [] 0
                  "carrier-routes-1.txt" records
                  eq_refl eq_refl eq_refl eq_refl
                  ltac:(vm_compute; lia) eq_refl)).
Defined.
